(** * OmniESP: drivers, factory, registry lookups and rule engine

    A shallow embedding of the firmware's core:
    - [OmniDrivers.h] (second revision, with the I2C drivers and the display
      type): the [Device] hierarchy and [DeviceFactory::create];
    - the first revision of [Driver_DHT::read], kept in [OmniDriversV1];
    - [src/main.cpp]: [isPinValid], [loadConfig], [checkRules] and the
      [/api/control] handler, in [MainCpp];
    - the later revision of the main file (with the 500 ms gate in
      [checkRules]), in [MainRev].

    Hardware inputs are sampled through a [Hardware] record, hardware outputs
    are collected as a list of [HwOp].  The global [devices] vector of
    pointers is a [list Device]; a [Device*] is an index into it. *)

From Stdlib Require Import ZArith Lia Bool.
From Stdlib Require Import Floats.SpecFloat.
From stdpp Require Import base list strings pretty.

Local Open Scope Z_scope.

(** ** Numbers of the target

    A C [float] is an IEEE binary32 number ([prec = 24], [emax = 128]); a
    [double] is binary64.  Both are carried by [spec_float]. *)

Definition float := spec_float.

Definition f32_of_Z (z : Z) : float := binary_normalize 24 128 z 0 false.
Definition f64_of_Z (z : Z) : float := binary_normalize 53 1024 z 0 false.

(** [static_cast<float>(d)] for a double [d]. *)
Definition f32_of_f64 (d : float) : float :=
  match d with
  | S754_finite s m e => binary_round 24 128 s m e
  | _ => d
  end.

Definition isnan (f : float) : bool :=
  match f with S754_nan => true | _ => false end.

(** [a > b], [a < b], [a >= b], [a == b] on floats. *)
Definition fgt (a b : float) : bool := SFltb b a.
Definition flt (a b : float) : bool := SFltb a b.
Definition fge (a b : float) : bool := SFleb b a.
Definition feq (a b : float) : bool := SFeqb a b.

Definition INT_MIN : Z := - 2 ^ 31.
Definition INT_MAX : Z := 2 ^ 31 - 1.

(** The integer part of a float (rounding toward zero); [None] for NaN and
    the infinities. *)
Definition trunc (f : float) : option Z :=
  match f with
  | S754_zero _ => Some 0
  | S754_finite s m e => Some (cond_Zopp s (Z.shiftl (Zpos m) e))
  | _ => None
  end.

(** Library functions of the Arduino core and of ArduinoJson that the
    firmware calls and whose code is not part of the repository. *)
Class Platform := {
  (** [String(float)]: the decimal text of a float. *)
  String_of_float : float -> string;
  (** ArduinoJson's conversion of a string value by [as<float>()]. *)
  parseNumber : string -> float;
  (** What [(int)f] yields when the integer part of [f] does not fit an
      [int] or [f] is NaN or infinite (undefined in C++). *)
  int_of_float_overflow : float -> Z;
  (** [String::toFloat()] *)
  toFloat : string -> float;
}.

Section Numbers.
Context {P : Platform}.

(** [(int)f] and [(long)f] (both 32 bits on the ESP32). *)
Definition cast_int (f : float) : Z :=
  match trunc f with
  | Some n => if (INT_MIN <=? n) && (n <=? INT_MAX) then n else int_of_float_overflow f
  | None => int_of_float_overflow f
  end.

End Numbers.

(** Modelled from the spec: Arduino's [constrain] macro is not under src/;
    the spec says position actuators clamp the value into [0,180].  This is
    [((amt)<(low)?(low):((amt)>(high)?(high):(amt)))]. *)
Definition constrain (amt low high : Z) : Z :=
  if amt <? low then low else if amt >? high then high else amt.

(** ** JSON objects (ArduinoJson)

    A [JsonObject] keeps its members in insertion order; [doc[k] = v]
    replaces the member [k] when it exists and appends it otherwise.  The
    capacity of the underlying document is not modelled. *)

Inductive JsonValue :=
| JInt (n : Z)
| JFloat (f : float)
| JDouble (d : float)
| JString (s : string).

Definition JsonObject := list (string * JsonValue).

Fixpoint json_set (k : string) (v : JsonValue) (o : JsonObject) : JsonObject :=
  match o with
  | [] => [(k, v)]
  | (k', v') :: o' =>
      if String.eqb k' k then (k, v) :: o' else (k', v') :: json_set k v o'
  end.

Fixpoint json_get (k : string) (o : JsonObject) : option JsonValue :=
  match o with
  | [] => None
  | (k', v') :: o' => if String.eqb k' k then Some v' else json_get k o'
  end.

Definition containsKey (k : string) (o : JsonObject) : bool :=
  match json_get k o with Some _ => true | None => false end.

Definition json_keys (o : JsonObject) : list string := map fst o.

Section JsonConversion.
Context {P : Platform}.

(** [float val = obj[k]] on a member that exists. *)
Definition as_float (v : JsonValue) : float :=
  match v with
  | JInt n => f32_of_Z n
  | JFloat f => f
  | JDouble d => f32_of_f64 d
  | JString s => parseNumber s
  end.

End JsonConversion.

(** ** Devices *)

Inductive DeviceType :=
| SENSOR_BIN | SENSOR_VAL | ACTUATOR_BIN | ACTUATOR_VAL | DISPLAY_DEV.

Definition DeviceType_eqb (a b : DeviceType) : bool :=
  match a, b with
  | SENSOR_BIN, SENSOR_BIN | SENSOR_VAL, SENSOR_VAL
  | ACTUATOR_BIN, ACTUATOR_BIN | ACTUATOR_VAL, ACTUATOR_VAL
  | DISPLAY_DEV, DISPLAY_DEV => true
  | _, _ => false
  end.

Inductive DHTType := DHT11 | DHT22.

(** The state each subclass adds to [Device]. *)
Inductive Driver :=
| Driver_Digital (_isOutput _inverted _state : bool)
| Driver_Analog
| Driver_DHT (type : DHTType)
| Driver_Dallas
| Driver_Servo (_pos : Z)
| Driver_Neo (_count : Z)
| Driver_INA219
| Driver_BME280
| Driver_BH1750
| Driver_LCD (_lastMsg : string).

Record Device := mkDevice {
  _id : string;
  _name : string;
  _driver : string;
  _pin : Z;
  drv : Driver;
}.

Definition getId (d : Device) : string := _id d.
Definition getName (d : Device) : string := _name d.
Definition getDriver (d : Device) : string := _driver d.
Definition getPin (d : Device) : Z := _pin d.

Definition set_drv (d : Device) (s : Driver) : Device :=
  mkDevice (_id d) (_name d) (_driver d) (_pin d) s.

(** Sensor inputs, by pin or bus address.  [dallas_getTempCByIndex0] stands
    for [requestTemperatures()] followed by [getTempCByIndex(0)]. *)
Record Hardware := mkHardware {
  digitalRead : Z -> bool;
  analogRead : Z -> Z;
  dht_readTemperature : Z -> float;
  dht_readHumidity : Z -> float;
  dallas_getTempCByIndex0 : Z -> float;
  ina_getBusVoltage_V : Z -> float;
  ina_getCurrent_mA : Z -> float;
  ina_getPower_mW : Z -> float;
  bme_readTemperature : Z -> float;
  bme_readHumidity : Z -> float;
  bme_readPressure : Z -> float;
  bh_readLightLevel : Z -> float;
  ina_begin_ok : Z -> bool;
  bme_begin_ok : Z -> bool;
  bh_begin_ok : Z -> bool;
}.

Inductive PinModeKind := OUTPUT | INPUT | INPUT_PULLUP.

(** Commands sent to the hardware. *)
Inductive HwOp :=
| pinMode (pin : Z) (m : PinModeKind)
| digitalWrite (pin : Z) (level : bool)
| dht_begin (pin : Z)
| dallas_begin (pin : Z)
| servo_attach (pin : Z)
| servo_write (pin : Z) (angle : Z)
| neo_begin (pin : Z)
| neo_setPixelColor (pin : Z) (i : Z) (hue : Z)
| neo_show (pin : Z)
| ina_begin (addr : Z)
| bme_begin (addr : Z)
| bh_begin (addr : Z)
| Serial_print (msg : string) (arg : Z)
| lcd_init (addr : Z)
| lcd_backlight (addr : Z)
| lcd_clear (addr : Z)
| lcd_setCursor (addr : Z) (col row : Z)
| lcd_print (addr : Z) (s : string)
| lcd_print_float (addr : Z) (f : float).

(** [text.length() > 16 ? text.substring(0, 16) : text] *)
Definition lcd_line2 (text : string) : string :=
  if (16 <? String.length text)%nat then String.substring 0 16 text else text.

(** The double constant [3.3]: the binary64 number nearest to 33/10. *)
Definition double_3_3 : float :=
  Eval vm_compute in SFdiv 53 1024 (f64_of_Z 33) (f64_of_Z 10).
Definition double_4095 : float := f64_of_Z 4095.
Definition float_100 : float := f32_of_Z 100.
Definition float_1 : float := f32_of_Z 1.
Definition float_m127 : float := f32_of_Z (-127).

(** ** The drivers' methods (second revision of OmniDrivers.h) *)

Section Drivers.
Context {P : Platform}.

(** [virtual DeviceType getType()] *)
Definition getType (d : Device) : DeviceType :=
  match drv d with
  | Driver_Digital out _ _ => if out then ACTUATOR_BIN else SENSOR_BIN
  | Driver_Analog => SENSOR_VAL
  | Driver_DHT _ => SENSOR_VAL
  | Driver_Dallas => SENSOR_VAL
  | Driver_Servo _ => ACTUATOR_VAL
  | Driver_Neo _ => ACTUATOR_VAL
  | Driver_INA219 => SENSOR_VAL
  | Driver_BME280 => SENSOR_VAL
  | Driver_BH1750 => SENSOR_VAL
  | Driver_LCD _ => DISPLAY_DEV
  end.

(** [Driver_Digital::apply]: [digitalWrite(_pin, _inverted ? !_state : _state)] *)
Definition apply (pin : Z) (inverted state : bool) : HwOp :=
  digitalWrite pin (if inverted then negb state else state).

(** [virtual void begin()] *)
Definition begin (hw : Hardware) (d : Device) : list HwOp :=
  let pin := _pin d in
  match drv d with
  | Driver_Digital out inv st =>
      pinMode pin (if out then OUTPUT else INPUT_PULLUP)
      :: (if out then [apply pin inv st] else [])
  | Driver_Analog => [pinMode pin INPUT]
  | Driver_DHT _ => [dht_begin pin]
  | Driver_Dallas => [dallas_begin pin]
  | Driver_Servo _ => [servo_attach pin]
  | Driver_Neo _ => [neo_begin pin; neo_show pin]
  | Driver_INA219 =>
      ina_begin pin
      :: (if ina_begin_ok hw pin then [] else [Serial_print "INA219 not found at 0x%X" pin])
  | Driver_BME280 =>
      bme_begin pin
      :: (if bme_begin_ok hw pin then [] else [Serial_print "BME280 error at 0x%X" pin])
  | Driver_BH1750 =>
      bh_begin pin
      :: (if bh_begin_ok hw pin then [] else [Serial_print "BH1750 error" 0])
  | Driver_LCD _ =>
      [lcd_init pin; lcd_backlight pin;
       lcd_setCursor pin 0 0; lcd_print pin "OmniESP V2";
       lcd_setCursor pin 0 1; lcd_print pin "Ready..."]
  end.

(** [virtual void read(JsonObject& doc)] *)
Definition read (hw : Hardware) (d : Device) (doc : JsonObject) : Device * JsonObject :=
  let pin := _pin d in
  match drv d with
  | Driver_Digital out inv st =>
      let phy := digitalRead hw pin in
      let st' := if negb out then Bool.eqb phy (if inv then false else true) else st in
      (set_drv d (Driver_Digital out inv st'),
       json_set "human" (JString (if st' then "ON" else "OFF"))
         (json_set "val" (JInt (if st' then 1 else 0)) doc))
  | Driver_Analog =>
      let raw := analogRead hw pin in
      (d, json_set "volts"
            (JDouble (SFdiv 53 1024 (SFmul 53 1024 (f64_of_Z raw) double_3_3) double_4095))
            (json_set "val" (JInt raw) doc))
  | Driver_DHT _ =>
      let t := dht_readTemperature hw pin in
      let h := dht_readHumidity hw pin in
      (d, if isnan t then json_set "error" (JString "Sensor Error") doc
          else json_set "hum" (JFloat h) (json_set "temp" (JFloat t) doc))
  | Driver_Dallas =>
      let t := dallas_getTempCByIndex0 hw pin in
      (d, if feq t float_m127 then json_set "error" (JString "Disc.") doc
          else json_set "temp" (JFloat t) doc)
  | Driver_Servo pos => (d, json_set "angle" (JInt pos) doc)
  | Driver_Neo _ => (d, json_set "status" (JString "OK") doc)
  | Driver_INA219 =>
      (d, json_set "mW" (JFloat (ina_getPower_mW hw pin))
            (json_set "mA" (JFloat (ina_getCurrent_mA hw pin))
               (json_set "volts" (JFloat (ina_getBusVoltage_V hw pin)) doc)))
  | Driver_BME280 =>
      (d, json_set "pres" (JFloat (SFdiv 24 128 (bme_readPressure hw pin) float_100))
            (json_set "hum" (JFloat (bme_readHumidity hw pin))
               (json_set "temp" (JFloat (bme_readTemperature hw pin)) doc)))
  | Driver_BH1750 => (d, json_set "lux" (JFloat (bh_readLightLevel hw pin)) doc)
  | Driver_LCD lastMsg => (d, json_set "display" (JString lastMsg) doc)
  end.

(** [virtual void write(String cmd, float val)]; the base class does
    nothing. *)
Definition write (cmd : string) (val : float) (d : Device) : Device * list HwOp :=
  let pin := _pin d in
  match drv d with
  | Driver_Digital out inv st =>
      if negb out then (d, [])
      else
        let st' := if String.eqb cmd "toggle" then negb st else fge val float_1 in
        (set_drv d (Driver_Digital out inv st'), [apply pin inv st'])
  | Driver_Servo _ =>
      let pos := constrain (cast_int val) 0 180 in
      (set_drv d (Driver_Servo pos), [servo_write pin pos])
  | Driver_Neo count =>
      (d, map (fun i => neo_setPixelColor pin i (cast_int val mod 65536)) (seqZ 0 count)
          ++ [neo_show pin])
  | Driver_LCD _ =>
      (set_drv d (Driver_LCD (String_of_float val)),
       [lcd_clear pin; lcd_setCursor pin 0 0; lcd_print pin (_name d);
        lcd_setCursor pin 0 1; lcd_print_float pin val])
  | _ => (d, [])
  end.

(** [virtual void writeText(String text)]; only [Driver_LCD] overrides it. *)
Definition writeText (text : string) (d : Device) : Device * list HwOp :=
  let pin := _pin d in
  match drv d with
  | Driver_LCD _ =>
      (set_drv d (Driver_LCD text),
       [lcd_clear pin; lcd_setCursor pin 0 0; lcd_print pin (_name d);
        lcd_setCursor pin 0 1; lcd_print pin (lcd_line2 text)])
  | _ => (d, [])
  end.

(** ** [DeviceFactory::create] *)

Definition streq (a b : string) : bool := String.eqb a b.

Definition create (type id name : string) (pin_or_addr : Z) : option Device :=
  if streq type "RELAY" || streq type "VALVE" || streq type "LOCK" then
    Some (mkDevice id name type pin_or_addr (Driver_Digital true false false))
  else if streq type "BUTTON" || streq type "DOOR" || streq type "PIR" then
    Some (mkDevice id name type pin_or_addr
            (Driver_Digital false (negb (streq type "PIR")) false))
  else if streq type "LDR" || streq type "SOIL" || streq type "MQ2" then
    Some (mkDevice id name type pin_or_addr Driver_Analog)
  else if streq type "DHT22" then
    Some (mkDevice id name "DHT22" pin_or_addr (Driver_DHT DHT22))
  else if streq type "DHT11" then
    Some (mkDevice id name "DHT11" pin_or_addr (Driver_DHT DHT11))
  else if streq type "DS18B20" then
    Some (mkDevice id name "DS18B20" pin_or_addr Driver_Dallas)
  else if streq type "SERVO" then
    Some (mkDevice id name "SERVO" pin_or_addr (Driver_Servo 0))
  else if streq type "NEOPIXEL" then
    Some (mkDevice id name "NEOPIXEL" pin_or_addr (Driver_Neo 16))
  else if streq type "INA219" then
    Some (mkDevice id name "INA219" pin_or_addr Driver_INA219)
  else if streq type "BME280" then
    Some (mkDevice id name "BME280" pin_or_addr Driver_BME280)
  else if streq type "BH1750" then
    Some (mkDevice id name "BH1750" pin_or_addr Driver_BH1750)
  else if streq type "LCD_I2C" then
    Some (mkDevice id name "LCD_I2C" pin_or_addr (Driver_LCD ""))
  else None.

(** The tags [create] accepts. *)
Definition known_tags : list string :=
  ["RELAY"; "VALVE"; "LOCK"; "BUTTON"; "DOOR"; "PIR"; "LDR"; "SOIL"; "MQ2";
   "DHT22"; "DHT11"; "DS18B20"; "SERVO"; "NEOPIXEL";
   "INA219"; "BME280"; "BH1750"; "LCD_I2C"].

End Drivers.

(** ** The first revision of [Driver_DHT::read] *)

Module OmniDriversV1.

(** [if (isnan(t) || isnan(h)) doc["error"] = "Read Fail"; else { ... }] *)
Definition Driver_DHT_read (hw : Hardware) (d : Device) (doc : JsonObject)
  : Device * JsonObject :=
  let t := dht_readTemperature hw (_pin d) in
  let h := dht_readHumidity hw (_pin d) in
  (d, if isnan t || isnan h then json_set "error" (JString "Read Fail") doc
      else json_set "hum" (JFloat h) (json_set "temp" (JFloat t) doc)).

End OmniDriversV1.

(** ** Rules and the registry scans *)

Record Rule := mkRule {
  srcId : string;
  param : string;
  op : string;
  threshold : float;
  tgtId : string;
  actionVal : float;
}.

(** What a handler did, in order: the methods it invoked on the devices
    (by position in [devices]) and the hardware commands they issued. *)
Inductive Event :=
| EvRead (dev : nat)
| EvWrite (dev : nat) (cmd : string) (val : float)
| EvWriteText (dev : nat) (text : string)
| EvHw (o : HwOp).

Definition is_action (e : Event) : bool :=
  match e with
  | EvWrite _ _ _ | EvWriteText _ _ => true
  | _ => false
  end.

(** The method invocations of a trace that are [write] or [writeText]. *)
Definition actions (tr : list Event) : list Event := List.filter is_action tr.

(** [Device* d = nullptr; for(auto dev : devices) if(dev->getId() == id) d = dev;]
    started at position [i] with [d] found so far. *)
Fixpoint find_by_id (id : string) (devices : list Device) (i : nat) (d : option nat)
  : option nat :=
  match devices with
  | [] => d
  | dev :: rest =>
      find_by_id id rest (S i) (if String.eqb (getId dev) id then Some i else d)
  end.

(** The scan of [checkRules]:
    [for(auto d : devices) { if(d->getId() == r.srcId) src = d; if(d->getId() == r.tgtId) tgt = d; }] *)
Fixpoint find_src_tgt (r : Rule) (devices : list Device) (i : nat)
    (src tgt : option nat) : option nat * option nat :=
  match devices with
  | [] => (src, tgt)
  | d :: rest =>
      find_src_tgt r rest (S i)
        (if String.eqb (getId d) (srcId r) then Some i else src)
        (if String.eqb (getId d) (tgtId r) then Some i else tgt)
  end.

Section RuleEngine.
Context {P : Platform}.

(** The body of the loop [for(auto& r : rules)] of [checkRules], the same in
    both revisions of the main file. *)
Definition check_rule (hw : Hardware) (st : list Device * list Event) (r : Rule)
  : list Device * list Event :=
  let '(devices, tr) := st in
  match find_src_tgt r devices 0 None None with
  | (Some i, Some j) =>
      match devices !! i with
      | Some src =>
          let '(src', obj) := read hw src [] in
          let devices1 := <[i := src']> devices in
          let tr1 := tr ++ [EvRead i] in
          match json_get (param r) obj with
          | Some v =>
              let val := as_float v in
              let trig := (String.eqb (op r) ">" && fgt val (threshold r))
                          || (String.eqb (op r) "<" && flt val (threshold r)) in
              if trig then
                match devices1 !! j with
                | Some tgt =>
                    if DeviceType_eqb (getType tgt) DISPLAY_DEV then
                      let text := (getName src' +:+ ": " +:+ String_of_float val)%string in
                      let '(tgt', ops) := writeText text tgt in
                      (<[j := tgt']> devices1,
                       tr1 ++ EvWriteText j text :: map EvHw ops)
                    else
                      let '(tgt', ops) := write "set" (actionVal r) tgt in
                      (<[j := tgt']> devices1,
                       tr1 ++ EvWrite j "set" (actionVal r) :: map EvHw ops)
                | None => (devices1, tr1)
                end
              else (devices1, tr1)
          | None => (devices1, tr1)
          end
      | None => st
      end
  | _ => st
  end.

Definition run_rules (hw : Hardware) (devices : list Device) (rules : list Rule)
  : list Device * list Event :=
  fold_left (check_rule hw) rules (devices, []).

End RuleEngine.

(** A device record of the configuration: [{id, name, driver, pin}]. *)
Record Descriptor := mkDescriptor {
  d_id : string;
  d_name : string;
  d_driver : string;
  d_pin : Z;
}.

(** The parameters of a POST to [/api/control]. *)
Record ControlRequest := mkControlRequest {
  p_id : option string;
  p_text : option string;
  p_cmd : option string;
  p_val : option string;
}.

(** A configuration file: device records and rules. *)
Record Config := mkConfig {
  cfg_devices : list Descriptor;
  cfg_rules : list Rule;
}.

Section Dispatch.
Context {P : Platform}.

(** The body of the [/api/control] handler once a device is at hand:
    [writeText] when the request has a text, else [write] when it has a
    command, with [val] defaulting to 0. *)
Definition control_device (req : ControlRequest) (i : nat) (d : Device)
  : Device * list Event :=
  match p_text req with
  | Some text =>
      let '(d', ops) := writeText text d in (d', EvWriteText i text :: map EvHw ops)
  | None =>
      match p_cmd req with
      | Some cmd =>
          let v := match p_val req with Some s => toFloat s | None => f32_of_Z 0 end in
          let '(d', ops) := write cmd v d in (d', EvWrite i cmd v :: map EvHw ops)
      | None => (d, [])
      end
  end.

End Dispatch.

(** ** src/main.cpp *)

Module MainCpp.
Section Main.
Context {P : Platform}.

Definition isI2CDriver (type : string) : bool :=
  streq type "INA219" || streq type "BME280" || streq type "BH1750"
  || streq type "LCD_I2C" || streq type "OLED".

Definition isPinValid (pin : Z) (type : string) : bool :=
  if isI2CDriver type then (1 <=? pin) && (pin <=? 127)
  else if (pin <? 0) || (pin >? 39) then false
  else if (pin =? 1) || (pin =? 3) || ((6 <=? pin) && (pin <=? 11)) then false
  else true.

(** One pass of the loop over [doc["devices"]] in [loadConfig]. *)
Definition load_device (hw : Hardware) (acc : list Device * list HwOp) (obj : Descriptor)
  : list Device * list HwOp :=
  let '(devices, ops) := acc in
  let type := d_driver obj in
  let pin := d_pin obj in
  if negb (isPinValid pin type) then acc
  else
    match create type (d_id obj) (d_name obj) pin with
    | Some d => (devices ++ [d], ops ++ begin hw d)
    | None => acc
    end.

(** [loadConfig]; [None] when [/config.json] does not exist.  The result is
    the new [devices], the new [rules] and the hardware commands issued. *)
Definition loadConfig (hw : Hardware) (file : option Config)
    (devices : list Device) (rules : list Rule)
  : list Device * list Rule * list HwOp :=
  match file with
  | None => (devices, rules, [])
  | Some doc =>
      let '(devices', ops) := fold_left (load_device hw) (cfg_devices doc) (devices, []) in
      (devices', cfg_rules doc, ops)
  end.

(** [checkRules]: every call evaluates the rules. *)
Definition checkRules (hw : Hardware) (devices : list Device) (rules : list Rule)
  : list Device * list Event :=
  run_rules hw devices rules.

(** The [/api/control] handler: new [devices], what was done, and the HTTP
    status sent. *)
Definition api_control (req : ControlRequest) (devices : list Device)
  : list Device * list Event * Z :=
  match p_id req with
  | Some id =>
      match find_by_id id devices 0 None with
      | Some i =>
          match devices !! i with
          | Some d =>
              let '(d', evs) := control_device req i d in
              (<[i := d']> devices, evs, 200)
          | None => (devices, [], 200)
          end
      | None => (devices, [], 200)
      end
  | None => (devices, [], 400)
  end.

End Main.
End MainCpp.

(** ** The later revision of the main file *)

Module MainRev.

(** Modelled from the spec: the Arduino clock [millis()] is not under src/;
    the spec speaks of a wall-clock interval re-checked on each pass.
    [millis()] is the uptime in milliseconds as an [unsigned long], 32 bits
    on the ESP32, so it wraps around at [2^32]. *)
Definition millis (uptime : Z) : Z := uptime mod 2 ^ 32.

(** [a - b] on [unsigned long]. *)
Definition sub_ulong (a b : Z) : Z := (a - b) mod 2 ^ 32.

Record State := mkState {
  devices : list Device;
  rules : list Rule;
  lastCheck : Z;
}.

(** The globals at boot: [static unsigned long lastCheck = 0]. *)
Definition boot (ds : list Device) (rs : list Rule) : State := mkState ds rs 0.

(** One call of [checkRules]: the uptime at its two calls of [millis()] and
    the sensor inputs during the call. *)
Record Tick := mkTick {
  t_gate : Z;
  t_stamp : Z;
  t_hw : Hardware;
}.

Section Main.
Context {P : Platform}.

Definition isI2CDriver (type : string) : bool :=
  streq type "INA219" || streq type "BME280" || streq type "BH1750"
  || streq type "LCD_I2C" || streq type "OLED".

Definition isOutputDevice (type : string) : bool :=
  streq type "RELAY" || streq type "VALVE" || streq type "LOCK"
  || streq type "SERVO" || streq type "NEOPIXEL".

Definition isPinValid (pin : Z) (type : string) : bool :=
  if isI2CDriver type then (1 <=? pin) && (pin <=? 119)
  else if (pin <? 0) || (pin >? 39) then false
  else if (pin =? 1) || (pin =? 3) || ((6 <=? pin) && (pin <=? 11)) then false
  else if isOutputDevice type
          && ((pin =? 34) || (pin =? 35) || (pin =? 36) || (pin =? 39)) then false
  else true.

(** [checkRules]: [None] when it returns at the gate, else the trace of the
    evaluation pass. *)
Definition checkRules (t : Tick) (st : State) : State * option (list Event) :=
  if sub_ulong (millis (t_gate t)) (lastCheck st) <? 500 then (st, None)
  else
    let lastCheck' := millis (t_stamp t) in
    let '(ds, tr) := run_rules (t_hw t) (devices st) (rules st) in
    (mkState ds (rules st) lastCheck', Some tr).

(** Successive calls of [checkRules] from [loop()]: for each call, whether
    it ran the rule loop. *)
Fixpoint loop (st : State) (ticks : list Tick) : list bool :=
  match ticks with
  | [] => []
  | t :: rest =>
      let '(st', r) := checkRules t st in
      (match r with Some _ => true | None => false end) :: loop st' rest
  end.

(** The loop of the [/api/control] handler:
    [for(auto d : devices) { if(d->getId() == id) { ... } }] from position [i]. *)
Fixpoint control_each (req : ControlRequest) (id : string) (ds : list Device) (i : nat)
  : list Device * list Event :=
  match ds with
  | [] => ([], [])
  | d :: rest =>
      let '(d', evs) :=
        if String.eqb (getId d) id then control_device req i d else (d, []) in
      let '(rest', evs') := control_each req id rest (S i) in
      (d' :: rest', evs ++ evs')
  end.

Definition api_control (req : ControlRequest) (ds : list Device)
  : list Device * list Event * Z :=
  match p_id req with
  | Some id => let '(ds', evs) := control_each req id ds 0 in (ds', evs, 200)
  | None => (ds, [], 400)
  end.

End Main.
End MainRev.

(** ** The first revision of [DeviceFactory::create]

    The classes of the first revision have the constructors and the state of
    their namesakes of the second, so the devices are carried by the same
    [Device]. *)

Module OmniDriversV1Factory.

Definition create (type id name : string) (pin : Z) : option Device :=
  if streq type "RELAY" || streq type "VALVE" || streq type "PUMP"
     || streq type "HEATER" || streq type "LOCK" then
    Some (mkDevice id name type pin (Driver_Digital true false false))
  else if streq type "LIGHT_INV" then
    Some (mkDevice id name type pin (Driver_Digital true true false))
  else if streq type "BUTTON" || streq type "DOOR" || streq type "WINDOW"
          || streq type "REED" then
    Some (mkDevice id name type pin (Driver_Digital false true false))
  else if streq type "PIR" || streq type "MOTION" || streq type "VIBRATION"
          || streq type "SOUND_DIG" then
    Some (mkDevice id name type pin (Driver_Digital false false false))
  else if streq type "POT" || streq type "LDR" || streq type "SOIL"
          || streq type "WATER" || streq type "MQ2" || streq type "MQ135"
          || streq type "MQ7" || streq type "VOLTAGE" then
    Some (mkDevice id name type pin Driver_Analog)
  else if streq type "DHT11" then
    Some (mkDevice id name "DHT11" pin (Driver_DHT DHT11))
  else if streq type "DHT22" then
    Some (mkDevice id name "DHT22" pin (Driver_DHT DHT22))
  else if streq type "DS18B20" then
    Some (mkDevice id name "DS18B20" pin Driver_Dallas)
  else if streq type "SERVO" then
    Some (mkDevice id name "SERVO" pin (Driver_Servo 0))
  else if streq type "NEOPIXEL" then
    Some (mkDevice id name "NEOPIXEL" pin (Driver_Neo 12))
  else None.

(** The tags of the first revision that the second does not have. *)
Definition dropped_tags : list string :=
  ["PUMP"; "HEATER"; "LIGHT_INV"; "WINDOW"; "REED"; "MOTION"; "VIBRATION";
   "SOUND_DIG"; "POT"; "WATER"; "MQ135"; "MQ7"; "VOLTAGE"].

End OmniDriversV1Factory.

(** ** The other handlers

    What the firmware does besides the rule engine and the control handler:
    the bus scan, the status snapshot, saving the configuration and the
    [/api/config] handler.  A JSON document that is written to a file or
    received in a request is modelled by its content ([Config],
    [ConfigBody]), not by its text. *)

(** The document written by [saveConfig] holds, for each device,
    [{id, driver, name, pin}] taken from the getters. *)
Definition descriptor_of (d : Device) : Descriptor :=
  mkDescriptor (getId d) (getName d) (getDriver d) (getPin d).

(** What the destructors do to the hardware: [~Driver_Servo] detaches the
    servo; the others only free memory. *)
Inductive Teardown :=
| servo_detach (pin : Z).

Definition destroy (d : Device) : list Teardown :=
  match drv d with
  | Driver_Servo _ => [servo_detach (_pin d)]
  | _ => []
  end.

(** [clearDevices]: [for(auto d : devices) delete d; devices.clear();] *)
Definition clearDevices (devices : list Device) : list Device * list Teardown :=
  ([], flat_map destroy devices).

(** The body of a POST to [/api/config] once parsed: the array [devices]
    (empty when the member is missing) and the array [rules] when the
    document has that member. *)
Record ConfigBody := mkConfigBody {
  body_devices : list Descriptor;
  body_rules : option (list Rule);
}.

(** One element of the array [devices] of [/api/status]. *)
Record StatusEntry := mkStatusEntry {
  st_id : string;
  st_name : string;
  st_driver : string;
  st_pin : Z;
  st_val : JsonObject;
}.

(** The loop of the [/api/status] handler: each device is described by its
    getters and read into a fresh object [val]. *)
Fixpoint status_loop (hw : Hardware) (devices : list Device)
  : list Device * list StatusEntry :=
  match devices with
  | [] => ([], [])
  | d :: rest =>
      let '(d', val) := read hw d [] in
      let '(rest', entries) := status_loop hw rest in
      (d' :: rest',
       mkStatusEntry (getId d) (getName d) (getDriver d) (getPin d) val :: entries)
  end.

(** One element of the array [i2c_devices] of the bus scan. *)
Record I2CEntry := mkI2CEntry {
  addr_dec : Z;
  addr_hex : string;
  hint : string;
}.

Definition hex_digit (n : Z) : string :=
  match n with
  | 0 => "0" | 1 => "1" | 2 => "2" | 3 => "3" | 4 => "4" | 5 => "5" | 6 => "6"
  | 7 => "7" | 8 => "8" | 9 => "9" | 10 => "A" | 11 => "B" | 12 => "C"
  | 13 => "D" | 14 => "E" | _ => "F"
  end.

(** [sprintf(hexStr, "0x%02X", address)] for a [byte]. *)
Definition sprintf_0x02X (address : Z) : string :=
  ("0x" +:+ hex_digit (address / 16) +:+ hex_digit (address mod 16))%string.

Module MainCppHandlers.

(** The chain of [if(address == ...) obj["hint"] = ...] of [scanI2C]. *)
Definition hint_of (address : Z) : string :=
  if address =? 39 then "LCD 1602"
  else if address =? 60 then "OLED SSD1306"
  else if address =? 64 then "INA219 Power"
  else if address =? 118 then "BME280/BMP280"
  else if address =? 35 then "BH1750 Light"
  else "Unknown".

(** [scanI2C]: [for(byte address = 1; address < 127; address++)], where
    [ack address] tells whether [Wire.endTransmission()] returns 0 after
    [Wire.beginTransmission(address)].  The result is the content of the
    array [i2c_devices]. *)
Definition scanI2C (ack : Z -> bool) : list I2CEntry :=
  flat_map (fun address =>
              if ack address
              then [mkI2CEntry address (sprintf_0x02X address) (hint_of address)]
              else [])
           (seqZ 1 126).

(** [saveConfig]: the document written to [/config.json] (when the file
    opens). *)
Definition saveConfig (devices : list Device) (rules : list Rule) : Config :=
  mkConfig (map descriptor_of devices) rules.

(** The [/api/status] handler. *)
Definition api_status (hw : Hardware) (devices : list Device)
  : list Device * list StatusEntry :=
  status_loop hw devices.

(** What the [/api/config] handler leaves behind. *)
Record ConfigResult := mkConfigResult {
  r_devices : list Device;
  r_rules : list Rule;
  r_teardown : list Teardown;
  r_ops : list HwOp;
  r_saved : option Config;
  r_response : option (Z * string);
}.

(** The request-body handler; [body = None] when [deserializeJson] fails.
    On another URL it does nothing and sends nothing.  [saveConfig] opens
    [/config.json] without testing the handle: when the open fails
    ([can_open = false]) nothing is written, and the handler goes on all the
    same. *)
Definition api_config (hw : Hardware) (can_open : bool) (url : string)
    (body : option ConfigBody) (devices : list Device) (rules : list Rule)
  : ConfigResult :=
  if String.eqb url "/api/config" then
    match body with
    | None => mkConfigResult devices rules [] [] None (Some (400, "Bad JSON"%string))
    | Some doc =>
        let '(cleared, torn) := clearDevices devices in
        let '(devices', ops) :=
          fold_left (MainCpp.load_device hw) (body_devices doc) (cleared, []) in
        mkConfigResult devices' rules torn ops
                       (if can_open then Some (saveConfig devices' rules) else None)
                       (Some (200, "Saved"%string))
    end
  else mkConfigResult devices rules [] [] None None.

End MainCppHandlers.

Module MainRevHandlers.

Definition hint_of (address : Z) : string :=
  if address =? 39 then "LCD 1602"
  else if address =? 60 then "OLED SSD1306"
  else if address =? 64 then "INA219 Power"
  else if address =? 118 then "BME280"
  else if address =? 35 then "BH1750"
  else "Unknown".

Definition scanI2C (ack : Z -> bool) : list I2CEntry :=
  flat_map (fun address =>
              if ack address
              then [mkI2CEntry address (sprintf_0x02X address) (hint_of address)]
              else [])
           (seqZ 1 126).

(** One pass of the loop over the array [devices], in [loadConfig] and in the
    [/api/config] handler. *)
Definition load_device (hw : Hardware) (acc : list Device * list HwOp) (obj : Descriptor)
  : list Device * list HwOp :=
  let '(devices, ops) := acc in
  let type := d_driver obj in
  let pin := d_pin obj in
  if MainRev.isPinValid pin type then
    match create type (d_id obj) (d_name obj) pin with
    | Some d => (devices ++ [d], ops ++ begin hw d)
    | None => acc
    end
  else acc.

(** The rules part of a document:
    [rules.clear(); for(JsonObject obj : rArr) rules.push_back(...)]. *)
Definition reload_rules (doc_rules : option (list Rule)) : list Rule :=
  match doc_rules with
  | Some rs => rs
  | None => []
  end.

(** What is in [/config.json]. *)
Inductive ConfigFile :=
| NoFile
| BadFile
| GoodFile (doc : ConfigBody).

(** [loadConfig]: nothing happens when the file is missing or does not
    parse. *)
Definition loadConfig (hw : Hardware) (file : ConfigFile)
    (devices : list Device) (rules : list Rule)
  : list Device * list Rule * list HwOp :=
  match file with
  | NoFile | BadFile => (devices, rules, [])
  | GoodFile doc =>
      let '(devices', ops) := fold_left (load_device hw) (body_devices doc) (devices, []) in
      (devices', reload_rules (body_rules doc), ops)
  end.

(** [saveConfig]: the document written, or nothing when the file cannot be
    opened. *)
Definition saveConfig (can_open : bool) (devices : list Device) (rules : list Rule)
  : option Config :=
  if can_open then Some (mkConfig (map descriptor_of devices) rules) else None.

Record ConfigResult := mkConfigResult {
  r_devices : list Device;
  r_rules : list Rule;
  r_teardown : list Teardown;
  r_ops : list HwOp;
  r_saved : option Config;
  r_response : option (Z * string);
}.

(** The request-body handler: the rules are replaced only when the document
    has a member [rules]. *)
Definition api_config (hw : Hardware) (can_open : bool) (url : string)
    (body : option ConfigBody) (devices : list Device) (rules : list Rule)
  : ConfigResult :=
  if String.eqb url "/api/config" then
    match body with
    | Some doc =>
        let '(cleared, torn) := clearDevices devices in
        let '(devices', ops) :=
          fold_left (load_device hw) (body_devices doc) (cleared, []) in
        let rules' := match body_rules doc with
                      | Some rs => rs
                      | None => rules
                      end in
        mkConfigResult devices' rules' torn ops (saveConfig can_open devices' rules')
                       (Some (200, "Saved"%string))
    | None => mkConfigResult devices rules [] [] None (Some (400, "Invalid JSON"%string))
    end
  else mkConfigResult devices rules [] [] None None.

End MainRevHandlers.

(** ** A platform to run the model on

    Plain stand-ins for the library functions: floats are printed with two
    decimals, and strings are read as decimal integers. *)

Definition hundredths (f : float) : option Z :=
  match f with
  | S754_zero _ => Some 0
  | S754_finite s m e =>
      let n := if 0 <=? e then Zpos m * 2 ^ e * 100
               else (Zpos m * 200 + 2 ^ (- e)) / (2 * 2 ^ (- e)) in
      Some (cond_Zopp s n)
  | _ => None
  end.

Definition sample_String_of_float (f : float) : string :=
  match hundredths f with
  | Some h =>
      let a := Z.abs h in
      let sign : string := if h <? 0 then "-" else "" in
      let units : string := pretty (a / 100) in
      let tenths : string := pretty (a mod 100 / 10) in
      let cents : string := pretty (a mod 10) in
      (sign +:+ units +:+ "." +:+ tenths +:+ cents)%string
  | None => if isnan f then "nan" else "inf"
  end.

Fixpoint parse_digits (s : string) (acc : Z) : Z :=
  match s with
  | String c rest =>
      let n := Z.of_nat (Ascii.nat_of_ascii c) in
      if (48 <=? n) && (n <=? 57) then parse_digits rest (10 * acc + (n - 48)) else acc
  | EmptyString => acc
  end.

Definition sample_parse (s : string) : float :=
  match s with
  | String c rest =>
      if (Ascii.nat_of_ascii c =? 45)%nat then f32_of_Z (- parse_digits rest 0)
      else f32_of_Z (parse_digits s 0)
  | EmptyString => f32_of_Z 0
  end.

Definition sample_overflow (f : float) : Z :=
  match f with
  | S754_finite true _ _ | S754_infinity true => INT_MIN
  | S754_nan => 0
  | _ => INT_MAX
  end.

Definition sample_platform : Platform :=
  {| String_of_float := sample_String_of_float;
     parseNumber := sample_parse;
     int_of_float_overflow := sample_overflow;
     toFloat := sample_parse |}.

(** Sensor inputs that are all zero, and some variations. *)
Definition quiet_hw : Hardware :=
  let zero := fun _ : Z => S754_zero false in
  mkHardware (fun _ => false) (fun _ => 0) zero zero zero zero zero zero
             zero zero zero zero (fun _ => true) (fun _ => true) (fun _ => true).

Definition dht_hw (t h : float) : Hardware :=
  let zero := fun _ : Z => S754_zero false in
  mkHardware (fun _ => false) (fun _ => 0) (fun _ => t) (fun _ => h) zero zero zero zero
             zero zero zero zero (fun _ => true) (fun _ => true) (fun _ => true).

(** * Properties *)

(** ** Strings on the display *)

Lemma substring_0_length (n : nat) (s : string) :
  String.length (String.substring 0 n s) = Nat.min n (String.length s).
Proof.
  revert s. induction n as [|n IH]; intros s.
  - destruct s; reflexivity.
  - destruct s as [|c s]; [reflexivity|]. simpl. now rewrite IH.
Qed.

Lemma substring_0_prefix (n : nat) (s : string) :
  exists rest, s = (String.substring 0 n s +:+ rest)%string.
Proof.
  revert s. induction n as [|n IH]; intros s.
  - exists s. destruct s; reflexivity.
  - destruct s as [|c s]; [now exists ""%string|].
    destruct (IH s) as [rest Hrest]. exists rest.
    change (String c s = String c (String.substring 0 n s +:+ rest)%string).
    now f_equal.
Qed.

Lemma append_empty_r (t : string) : (t +:+ "")%string = t.
Proof.
  induction t as [|c t IH]; [reflexivity|].
  change (String c (t +:+ "")%string = String c t). now f_equal.
Qed.

Lemma lcd_line2_length (t : string) :
  String.length (lcd_line2 t) = Nat.min 16 (String.length t).
Proof.
  unfold lcd_line2. destruct (Nat.ltb_spec 16 (String.length t)).
  - apply substring_0_length.
  - lia.
Qed.

Lemma lcd_line2_prefix (t : string) :
  exists rest, t = (lcd_line2 t +:+ rest)%string.
Proof.
  unfold lcd_line2. destruct (16 <? String.length t)%nat.
  - apply substring_0_prefix.
  - exists ""%string. now rewrite append_empty_r.
Qed.

Lemma lcd_line2_long (t : string) :
  (16 < String.length t)%nat ->
  lcd_line2 t = String.substring 0 16 t /\ lcd_line2 t <> t.
Proof.
  intros H. unfold lcd_line2.
  destruct (Nat.ltb_spec 16 (String.length t)); [|lia].
  split; [reflexivity|]. intros E.
  pose proof (substring_0_length 16 t) as L. rewrite E in L. lia.
Qed.

Lemma lcd_line2_short (t : string) :
  (String.length t <= 16)%nat -> lcd_line2 t = t.
Proof.
  intros H. unfold lcd_line2.
  destruct (Nat.ltb_spec 16 (String.length t)); [lia|reflexivity].
Qed.

(** ** Digital devices *)

Section DigitalProperties.
Context {P : Platform}.

Definition digital (id name type : string) (pin : Z) (out inv st : bool) : Device :=
  mkDevice id name type pin (Driver_Digital out inv st).

(** The level [apply] drives for a stored state. *)
Definition drive_level (inverted state : bool) : bool :=
  if inverted then negb state else state.

(** C6: on an output-direction digital device, [write("toggle", v)] flips
    the stored state once whatever [v] is, any other command stores
    [v >= 1], and in both cases the pin is driven once, at the stored state
    with the inversion flag applied (with inversion on and state true, the
    level is LOW).  On an input-direction digital device [write] changes
    nothing and drives nothing. *)
Theorem C6_digital_write (id name type : string) (pin : Z) (inv st : bool)
    (cmd : string) (v : float) :
  write "toggle" v (digital id name type pin true inv st)
    = (digital id name type pin true inv (negb st),
       [digitalWrite pin (drive_level inv (negb st))])
  /\ (cmd <> "toggle"%string ->
      write cmd v (digital id name type pin true inv st)
        = (digital id name type pin true inv (fge v float_1),
           [digitalWrite pin (drive_level inv (fge v float_1))]))
  /\ drive_level true true = false
  /\ write cmd v (digital id name type pin false inv st)
      = (digital id name type pin false inv st, []).
Proof.
  repeat split.
  intros Hcmd. unfold write, digital; simpl.
  destruct (String.eqb_spec cmd "toggle"); [contradiction|reflexivity].
Qed.

End DigitalProperties.

(** [v >= 1] at a few values: 1, 2, 0, 0.5 and NaN. *)
Example fge_one_samples :
  fge (f32_of_Z 1) float_1 = true /\ fge (f32_of_Z 2) float_1 = true
  /\ fge (f32_of_Z 0) float_1 = false
  /\ fge (binary_normalize 24 128 1 (-1) false) float_1 = false
  /\ fge S754_nan float_1 = false.
Proof. repeat split. Qed.

(** Two toggles bring the stored state back. *)
Example toggle_twice :
  let d := digital "r" "Relay" "RELAY" 23 true false false in
  let d1 := fst (write (P := sample_platform) "toggle" (f32_of_Z 0) d) in
  let d2 := fst (write (P := sample_platform) "toggle" (f32_of_Z 0) d1) in
  drv d1 = Driver_Digital true false true /\ d2 = d.
Proof. split; reflexivity. Qed.

(** ** The position actuator *)

Section ServoProperties.
Context {P : Platform}.

Definition servo (id name : string) (pin : Z) (pos : Z) : Device :=
  mkDevice id name "SERVO" pin (Driver_Servo pos).

(** The angle [read] reports: the member [angle] of its output. *)
Definition reported_angle (hw : Hardware) (d : Device) : option JsonValue :=
  json_get "angle" (snd (read hw d [])).

Lemma constrain_bounds (amt low high : Z) :
  low <= high -> low <= constrain amt low high <= high.
Proof. unfold constrain. intros H. destruct (Z.ltb_spec amt low), (Z.gtb_spec amt high); lia. Qed.

Lemma constrain_max_min (amt low high : Z) :
  low <= high -> constrain amt low high = Z.max low (Z.min high amt).
Proof. unfold constrain. intros H. destruct (Z.ltb_spec amt low), (Z.gtb_spec amt high); lia. Qed.

Lemma cast_int_in_range (v : float) (n : Z) :
  trunc v = Some n -> INT_MIN <= n <= INT_MAX -> cast_int v = n.
Proof.
  intros Ht Hr. unfold cast_int. rewrite Ht.
  destruct (Z.leb_spec INT_MIN n), (Z.leb_spec n INT_MAX); simpl; lia.
Qed.

(** C7, as amended: [write(cmd, v)] stores [(int)v] clamped into [0,180],
    whatever [cmd] is, and a following [read] reports that angle.  The
    stored angle is always within [0,180], and it is the integer part of [v]
    (rounded toward zero) clamped into [0,180] whenever that integer part
    fits an [int].  [write(_, -10)] gives 0 and [write(_, 999)] gives 180. *)
Theorem C7_servo_write_truncates_then_clamps (hw : Hardware) (id name : string)
    (pin pos : Z) (cmd : string) (v : float) :
  let angle := constrain (cast_int v) 0 180 in
  write cmd v (servo id name pin pos) = (servo id name pin angle, [servo_write pin angle])
  /\ reported_angle hw (servo id name pin angle) = Some (JInt angle)
  /\ 0 <= angle <= 180
  /\ (forall n, trunc v = Some n -> INT_MIN <= n <= INT_MAX ->
        angle = Z.max 0 (Z.min 180 n))
  /\ fst (write cmd (f32_of_Z (-10)) (servo id name pin pos)) = servo id name pin 0
  /\ fst (write cmd (f32_of_Z 999) (servo id name pin pos)) = servo id name pin 180.
Proof.
  intros angle. repeat split.
  - apply constrain_bounds; lia.
  - apply constrain_bounds; lia.
  - intros n Ht Hr. unfold angle. rewrite (cast_int_in_range v n Ht Hr).
    apply constrain_max_min; lia.
Qed.

End ServoProperties.

(** The spec's wording of the clamp, on the commanded value itself:
    [v] clamped into [0,180]. *)
Definition spec_clamp_0_180 (v : float) : float :=
  if flt v (f32_of_Z 0) then f32_of_Z 0
  else if fgt v (f32_of_Z 180) then f32_of_Z 180
  else v.

Definition float_90_5 : float := binary_normalize 24 128 181 (-1) false.

(** C7 as stated fails at [v = 90.5]: the value clamped into [0,180] is
    90.5, the angle stored and reported is 90. *)
Lemma C7_counterexample_fractional_angle :
  let d := fst (write (P := sample_platform) "set" float_90_5 (servo "s1" "Arm" 18 0)) in
  spec_clamp_0_180 float_90_5 = float_90_5
  /\ reported_angle quiet_hw d = Some (JInt 90)
  /\ feq (f32_of_Z 90) (spec_clamp_0_180 float_90_5) = false.
Proof. repeat split. Qed.

(** ** The character display and [writeText] *)

Definition lcd (id name : string) (addr : Z) (lastMsg : string) : Device :=
  mkDevice id name "LCD_I2C" addr (Driver_LCD lastMsg).

(** The strings printed after the cursor was last set on the given row. *)
Fixpoint printed_on_row (row : Z) (cur : Z) (ops : list HwOp) : list string :=
  match ops with
  | [] => []
  | lcd_setCursor _ _ r :: rest => printed_on_row row r rest
  | lcd_print _ s :: rest =>
      if cur =? row then s :: printed_on_row row cur rest
      else printed_on_row row cur rest
  | _ :: rest => printed_on_row row cur rest
  end.

Lemma getType_display (d : Device) :
  getType d = DISPLAY_DEV <-> exists m, drv d = Driver_LCD m.
Proof.
  unfold getType. split.
  - destruct (drv d) as [[] ? ?| | | | | | | | |m]; try discriminate. eauto.
  - intros [m ->]. reflexivity.
Qed.

(** C8: [writeText] leaves a device that is not a display unchanged and
    sends nothing to the hardware.  On the character display it clears the
    screen, prints the name on row 0 and prints on row 1 one string, the
    first [min 16 (length t)] characters of [t]: the whole text when it has
    at most 16 characters, its first 16 characters otherwise; nothing of the
    overflow is printed anywhere. *)
Theorem C8_writeText (d : Device) (id name : string) (addr : Z) (m t : string) :
  (getType d <> DISPLAY_DEV -> writeText t d = (d, []))
  /\ getType (lcd id name addr m) = DISPLAY_DEV
  /\ snd (writeText t (lcd id name addr m))
      = [lcd_clear addr; lcd_setCursor addr 0 0; lcd_print addr name;
         lcd_setCursor addr 0 1; lcd_print addr (lcd_line2 t)]
  /\ printed_on_row 1 0 (snd (writeText t (lcd id name addr m))) = [lcd_line2 t]
  /\ (String.length (lcd_line2 t) <= 16)%nat
  /\ String.length (lcd_line2 t) = Nat.min 16 (String.length t)
  /\ (exists overflow, t = (lcd_line2 t +:+ overflow)%string)
  /\ ((16 < String.length t)%nat -> lcd_line2 t = String.substring 0 16 t)
  /\ ((String.length t <= 16)%nat -> lcd_line2 t = t).
Proof.
  split; [|repeat split].
  - intros Hty. unfold writeText.
    destruct (drv d) eqn:E; try reflexivity.
    exfalso. apply Hty. apply getType_display. eauto.
  - rewrite lcd_line2_length. lia.
  - apply lcd_line2_length.
  - apply lcd_line2_prefix.
  - intros H. now apply lcd_line2_long.
  - apply lcd_line2_short.
Qed.

(** C10: after [writeText(t)] with [t] longer than 16 characters, [read]
    reports the whole of [t] under [display], while the text printed on
    row 1 is the first 16 characters of [t], which differs from [t]. *)
Theorem C10_lcd_read_reports_full_text (hw : Hardware) (id name : string)
    (addr : Z) (m t : string) :
  (16 < String.length t)%nat ->
  let d' := fst (writeText t (lcd id name addr m)) in
  read hw d' [] = (d', [("display"%string, JString t)])
  /\ printed_on_row 1 0 (snd (writeText t (lcd id name addr m)))
      = [String.substring 0 16 t]
  /\ String.substring 0 16 t <> t.
Proof.
  intros Hlen d'. destruct (lcd_line2_long t Hlen) as [E Hne].
  repeat split.
  - unfold writeText; simpl. now rewrite E.
  - now rewrite <- E.
Qed.

Lemma C10_witness :
  (16 < String.length "Salon: 23.50 deg C")%nat
  /\ (let d' := fst (writeText "Salon: 23.50 deg C" (lcd "lcd1" "Ecran" 39 "")) in
      read quiet_hw d' [] = (d', [("display"%string, JString "Salon: 23.50 deg C")])
      /\ printed_on_row 1 0 (snd (writeText "Salon: 23.50 deg C" (lcd "lcd1" "Ecran" 39 "")))
         = [String.substring 0 16 "Salon: 23.50 deg C"]
      /\ String.substring 0 16 "Salon: 23.50 deg C" <> "Salon: 23.50 deg C"%string).
Proof.
  split; [simpl; lia|].
  apply (C10_lcd_read_reports_full_text quiet_hw "lcd1" "Ecran" 39 "" "Salon: 23.50 deg C").
  simpl; lia.
Defined.

(** What the display shows for that text: row 1 holds ["Salon: 23.50 deg"]. *)
Example lcd_truncation_sample :
  snd (writeText "Salon: 23.50 deg C" (lcd "lcd1" "Ecran" 39 ""))
  = [lcd_clear 39; lcd_setCursor 39 0 0; lcd_print 39 "Ecran";
     lcd_setCursor 39 0 1; lcd_print 39 "Salon: 23.50 deg"].
Proof. reflexivity. Qed.

(** ** The DHT sensor *)

Definition dht (id name : string) (pin : Z) (ty : DHTType) : Device :=
  mkDevice id name (match ty with DHT11 => "DHT11" | DHT22 => "DHT22" end) pin
           (Driver_DHT ty).

(** What one call of [read] should put in a fresh object: the single key
    [error] when either channel is NaN, else the keys [temp] and [hum]. *)
Definition dht_output_ok (t h : float) (out : JsonObject) : Prop :=
  json_keys out = if isnan t || isnan h then ["error"%string] else ["temp"; "hum"]%string.

Definition float_21_5 : float := binary_normalize 24 128 43 (-1) false.

(** The first revision tests both channels. *)
Lemma dht_read_v1_ok (hw : Hardware) (id name : string) (pin : Z) (ty : DHTType) :
  dht_output_ok (dht_readTemperature hw pin) (dht_readHumidity hw pin)
    (snd (OmniDriversV1.Driver_DHT_read hw (dht id name pin ty) [])).
Proof.
  unfold dht_output_ok, OmniDriversV1.Driver_DHT_read; simpl.
  destruct (isnan (dht_readTemperature hw pin) || isnan (dht_readHumidity hw pin));
    reflexivity.
Qed.

(** The second revision tests the temperature only. *)
Lemma dht_read_keys (hw : Hardware) (id name : string) (pin : Z) (ty : DHTType) :
  json_keys (snd (read hw (dht id name pin ty) []))
  = if isnan (dht_readTemperature hw pin) then ["error"%string] else ["temp"; "hum"]%string.
Proof.
  unfold read; simpl. destruct (isnan (dht_readTemperature hw pin)); reflexivity.
Qed.

Lemma dht_read_ok_unless_humidity_alone_nan (hw : Hardware) (id name : string)
    (pin : Z) (ty : DHTType) :
  isnan (dht_readTemperature hw pin) = true \/ isnan (dht_readHumidity hw pin) = false ->
  dht_output_ok (dht_readTemperature hw pin) (dht_readHumidity hw pin)
    (snd (read hw (dht id name pin ty) [])).
Proof.
  intros H. unfold dht_output_ok. rewrite dht_read_keys.
  destruct (isnan (dht_readTemperature hw pin)), (isnan (dht_readHumidity hw pin));
    try reflexivity.
  destruct H; discriminate.
Qed.

(** The error key never comes with a value key. *)
Lemma dht_read_error_excludes_values (hw : Hardware) (id name : string)
    (pin : Z) (ty : DHTType) :
  let out := snd (read hw (dht id name pin ty) []) in
  containsKey "error" out = true ->
  containsKey "temp" out = false /\ containsKey "hum" out = false.
Proof.
  unfold read; simpl. destruct (isnan (dht_readTemperature hw pin)); simpl.
  - intros _. split; reflexivity.
  - discriminate.
Qed.

(** C2 fails on the second revision of [Driver_DHT::read]: with a
    temperature of 21.5 and a humidity that is NaN, the output holds [temp]
    and [hum] (the NaN) and no [error], where the claim asks for the single
    key [error]; the first revision gives that on the same input. *)
Theorem C2_dht_read_humidity_nan :
  let hw := dht_hw float_21_5 S754_nan in
  let d := dht "t1" "Salon" 4 DHT22 in
  read hw d [] = (d, [("temp"%string, JFloat float_21_5); ("hum"%string, JFloat S754_nan)])
  /\ ~ dht_output_ok float_21_5 S754_nan (snd (read hw d []))
  /\ OmniDriversV1.Driver_DHT_read hw d [] = (d, [("error"%string, JString "Read Fail")]).
Proof.
  repeat split. unfold dht_output_ok. simpl. discriminate.
Qed.

(** ** The factory and the batch load *)

Lemma create_unknown (type id name : string) (pin : Z) :
  ~ In type known_tags -> create type id name pin = None.
Proof.
  intros H. unfold create, streq.
  repeat match goal with
  | |- context [String.eqb type ?s] =>
      destruct (String.eqb_spec type s) as [->|_];
      [exfalso; apply H; simpl; tauto|]
  end.
  reflexivity.
Qed.

Lemma create_known (type id name : string) (pin : Z) :
  In type known_tags ->
  exists s, create type id name pin = Some (mkDevice id name type pin s).
Proof.
  intros H. simpl in H.
  repeat (destruct H as [<-|H]; [eexists; reflexivity|]).
  contradiction.
Qed.

Lemma create_none_iff (type id name : string) (pin : Z) :
  create type id name pin = None <-> ~ In type known_tags.
Proof.
  split; [|apply create_unknown].
  intros Hnone Hin. destruct (create_known type id name pin Hin) as [s Hs].
  congruence.
Qed.

(** [create] on a descriptor. *)
Definition construct (o : Descriptor) : option Device :=
  create (d_driver o) (d_id o) (d_name o) (d_pin o).

(** A descriptor the batch load registers: known tag and a pin that
    [isPinValid] accepts. *)
Definition loadable (o : Descriptor) : Prop :=
  In (d_driver o) known_tags /\ MainCpp.isPinValid (d_pin o) (d_driver o) = true.

(** What one pass of the load loop adds to [devices]. *)
Definition registers (o : Descriptor) : option Device :=
  if MainCpp.isPinValid (d_pin o) (d_driver o) then construct o else None.

Lemma load_device_registers (hw : Hardware) (ds : list Device) (ops : list HwOp)
    (o : Descriptor) :
  fst (MainCpp.load_device hw (ds, ops) o)
  = ds ++ match registers o with Some d => [d] | None => [] end.
Proof.
  unfold MainCpp.load_device, registers, construct.
  destruct (MainCpp.isPinValid (d_pin o) (d_driver o)); simpl.
  - destruct (create (d_driver o) (d_id o) (d_name o) (d_pin o)); simpl;
      [reflexivity|now rewrite app_nil_r].
  - now rewrite app_nil_r.
Qed.

Lemma load_devices_app (hw : Hardware) (l : list Descriptor) (ds : list Device)
    (ops : list HwOp) :
  fst (fold_left (MainCpp.load_device hw) l (ds, ops)) = ds ++ omap registers l.
Proof.
  revert ds ops. induction l as [|o l IH]; intros ds ops.
  - simpl. now rewrite app_nil_r.
  - cbn [fold_left].
    pose proof (load_device_registers hw ds ops o) as E.
    destruct (MainCpp.load_device hw (ds, ops) o) as [ds' ops'].
    rewrite IH. simpl in E. subst ds'. rewrite <- app_assoc. f_equal.
    simpl. now destruct (registers o).
Qed.

Lemma omap_cons_match {A B : Type} (f : A -> option B) (x : A) (l : list A) :
  omap f (x :: l) = match f x with Some y => y :: omap f l | None => omap f l end.
Proof. reflexivity. Qed.

Lemma omap_loadable (l : list Descriptor) :
  Forall loadable l ->
  omap registers l = omap construct l /\ length (omap construct l) = length l.
Proof.
  induction 1 as [|o l [Hk Hp] _ [IH1 IH2]]; [split; reflexivity|].
  destruct (create_known (d_driver o) (d_id o) (d_name o) (d_pin o) Hk) as [s Hs].
  assert (Hc : construct o = Some (mkDevice (d_id o) (d_name o) (d_driver o) (d_pin o) s))
    by exact Hs.
  assert (Hr : registers o = construct o) by (unfold registers; now rewrite Hp).
  rewrite !omap_cons_match, Hr, Hc, IH1. split; [reflexivity|].
  simpl. now rewrite IH2.
Qed.

(** C5, as amended: [create("RELAY", ...)] is an [ACTUATOR_BIN],
    [create("PIR", ...)] a [SENSOR_BIN], and [create] gives nothing exactly
    on the tags outside its closed list.  A batch of N+1 descriptors of
    which one has an unknown tag and the N others have known tags and pins
    that [isPinValid] accepts registers exactly N devices: the ones built, in
    order, from the N other descriptors. *)
Theorem C5_factory_and_batch_load (hw : Hardware) (l1 l2 : list Descriptor)
    (u : Descriptor) (devices : list Device) (rules rs : list Rule)
    (tag id name : string) (pin : Z) :
  ~ In (d_driver u) known_tags ->
  Forall loadable (l1 ++ l2) ->
  getType <$> create "RELAY" id name pin = Some ACTUATOR_BIN
  /\ getType <$> create "PIR" id name pin = Some SENSOR_BIN
  /\ (create tag id name pin = None <-> ~ In tag known_tags)
  /\ fst (fst (MainCpp.loadConfig hw (Some (mkConfig (l1 ++ u :: l2) rs)) devices rules))
     = devices ++ omap construct (l1 ++ l2)
  /\ length (omap construct (l1 ++ l2)) = length (l1 ++ l2).
Proof.
  intros Hu Hl. split; [reflexivity|]. split; [reflexivity|].
  split; [apply create_none_iff|].
  destruct (omap_loadable _ Hl) as [E L]. split; [|exact L].
  unfold MainCpp.loadConfig.
  destruct (fold_left (MainCpp.load_device hw) (cfg_devices (mkConfig (l1 ++ u :: l2) rs))
              (devices, [])) as [ds ops] eqn:F.
  simpl. change ds with (fst (ds, ops)). rewrite <- F. simpl cfg_devices.
  rewrite load_devices_app. f_equal.
  rewrite <- E. rewrite !omap_app. f_equal. rewrite omap_cons_match.
  assert (Hr : registers u = None).
  { unfold registers, construct. rewrite (create_unknown _ _ _ _ Hu).
    now destruct (MainCpp.isPinValid (d_pin u) (d_driver u)). }
  now rewrite Hr.
Qed.

Definition sample_batch_head : list Descriptor :=
  [mkDescriptor "fan1" "Ventilateur" "RELAY" 23].
Definition sample_batch_tail : list Descriptor :=
  [mkDescriptor "pir1" "Couloir" "PIR" 27; mkDescriptor "lcd1" "Ecran" "LCD_I2C" 39].
Definition sample_unknown : Descriptor := mkDescriptor "x1" "Inconnu" "UNKNOWN_TAG" 5.

Lemma loadable_dec_true (o : Descriptor) :
  existsb (String.eqb (d_driver o)) known_tags = true ->
  MainCpp.isPinValid (d_pin o) (d_driver o) = true -> loadable o.
Proof.
  intros H1 H2. split; [|exact H2].
  apply existsb_exists in H1 as (t & Hin & Ht).
  apply String.eqb_eq in Ht. now subst.
Qed.

Lemma C5_witness :
  fst (fst (MainCpp.loadConfig quiet_hw
              (Some (mkConfig (sample_batch_head ++ sample_unknown :: sample_batch_tail) []))
              [] []))
  = omap construct (sample_batch_head ++ sample_batch_tail)
  /\ length (omap construct (sample_batch_head ++ sample_batch_tail)) = 3%nat.
Proof.
  assert (Hu : ~ In (d_driver sample_unknown) known_tags).
  { simpl. intros H. repeat (destruct H as [H|H]; [discriminate H|]). exact H. }
  assert (Hl : Forall loadable (sample_batch_head ++ sample_batch_tail)).
  { repeat constructor; apply loadable_dec_true; reflexivity. }
  pose proof (C5_factory_and_batch_load quiet_hw sample_batch_head sample_batch_tail
                sample_unknown [] [] [] "RELAY" "fan1" "Ventilateur" 23 Hu Hl) as H.
  destruct H as (_ & _ & _ & H4 & H5). split; [exact H4|exact H5].
Defined.

(** C5 as stated fails on a batch of two descriptors of which one has an
    unknown tag and the other a known tag on GPIO 1, which [isPinValid]
    refuses: no device is registered, where the claim counts one. *)
Lemma C5_counterexample_refused_pin :
  let batch := [mkDescriptor "fan1" "Ventilateur" "RELAY" 1;
                mkDescriptor "x1" "Inconnu" "UNKNOWN_TAG" 5] in
  map (fun o => bool_decide (construct o = None)) batch = [false; true]
  /\ fst (fst (MainCpp.loadConfig quiet_hw (Some (mkConfig batch [])) [] [])) = [].
Proof. split; reflexivity. Qed.

(** ** Resolution of an id *)

(** [k] is the position of the last device of [ds] whose id is [id]. *)
Definition is_last_with_id (id : string) (ds : list Device) (k : nat) : Prop :=
  (exists d, ds !! k = Some d /\ getId d = id)
  /\ forall j d', (k < j)%nat -> ds !! j = Some d' -> getId d' <> id.

(** [k] is the position of the first device of [ds] whose id is [id]. *)
Definition is_first_with_id (id : string) (ds : list Device) (k : nat) : Prop :=
  (exists d, ds !! k = Some d /\ getId d = id)
  /\ forall j d', (j < k)%nat -> ds !! j = Some d' -> getId d' <> id.

Definition no_device_with_id (id : string) (ds : list Device) : Prop :=
  Forall (fun d => getId d <> id) ds.

Lemma find_by_id_cases (id : string) (ds : list Device) (i : nat) (acc : option nat) :
  (find_by_id id ds i acc = acc /\ no_device_with_id id ds)
  \/ (exists k, find_by_id id ds i acc = Some (i + k)%nat /\ is_last_with_id id ds k).
Proof.
  revert i acc. induction ds as [|dev rest IH]; intros i acc; simpl.
  - left. split; [reflexivity|constructor].
  - destruct (IH (S i) (if String.eqb (getId dev) id then Some i else acc))
      as [[E Hno]|(k & E & (d & Hd & Hid) & Hlast)].
    + destruct (String.eqb_spec (getId dev) id) as [Heq|Hne].
      * right. exists 0%nat. rewrite E, Nat.add_0_r. split; [reflexivity|].
        split; [exists dev; now split|].
        intros j d' Hj Hl. destruct j as [|j]; [lia|]. simpl in Hl.
        unfold no_device_with_id in Hno. rewrite Forall_forall in Hno.
        apply Hno. eapply list_elem_of_lookup_2. exact Hl.
      * left. split; [exact E|]. now constructor.
    + right. exists (S k). split; [rewrite E; f_equal; lia|].
      split; [exists d; now split|].
      intros j d' Hj Hl. destruct j as [|j]; [lia|]. simpl in Hl.
      apply (Hlast j d'); [lia|exact Hl].
Qed.

Lemma is_last_with_id_unique (id : string) (ds : list Device) (k k' : nat) :
  is_last_with_id id ds k -> is_last_with_id id ds k' -> k = k'.
Proof.
  intros [(d & Hd & Hid) Hl] [(d' & Hd' & Hid') Hl'].
  destruct (Nat.lt_trichotomy k k') as [H|[H|H]]; [|exact H|].
  - exfalso. exact (Hl k' d' H Hd' Hid').
  - exfalso. exact (Hl' k d H Hd Hid).
Qed.

Lemma is_last_excludes_none (id : string) (ds : list Device) (k : nat) :
  is_last_with_id id ds k -> no_device_with_id id ds -> False.
Proof.
  intros [(d & Hd & Hid) _] Hno. unfold no_device_with_id in Hno.
  rewrite Forall_forall in Hno. apply (Hno d); [|exact Hid].
  eapply list_elem_of_lookup_2. exact Hd.
Qed.

Lemma find_by_id_last (id : string) (ds : list Device) (k : nat) :
  find_by_id id ds 0 None = Some k <-> is_last_with_id id ds k.
Proof.
  destruct (find_by_id_cases id ds 0 None) as [[E Hno]|(k' & E & Hk')]; rewrite E.
  - split; [discriminate|]. intros H. exfalso. eapply is_last_excludes_none; eauto.
  - simpl. split.
    + intros [= <-]. exact Hk'.
    + intros H. f_equal. eapply is_last_with_id_unique; eauto.
Qed.

Lemma find_by_id_none (id : string) (ds : list Device) :
  find_by_id id ds 0 None = None <-> no_device_with_id id ds.
Proof.
  destruct (find_by_id_cases id ds 0 None) as [[E Hno]|(k' & E & Hk')]; rewrite E.
  - tauto.
  - split; [discriminate|]. intros H. exfalso. eapply is_last_excludes_none; eauto.
Qed.

Lemma find_src_tgt_split (r : Rule) (ds : list Device) (i : nat) (s t : option nat) :
  find_src_tgt r ds i s t = (find_by_id (srcId r) ds i s, find_by_id (tgtId r) ds i t).
Proof.
  revert i s t. induction ds as [|d rest IH]; intros i s t; simpl; [reflexivity|].
  apply IH.
Qed.

Section Resolution.
Context {P : Platform}.

Lemma control_each_no_match (req : ControlRequest) (id : string) (ds : list Device)
    (i : nat) :
  no_device_with_id id ds -> MainRev.control_each req id ds i = (ds, []).
Proof.
  intros H. revert i. induction H as [|d rest Hd _ IH]; intros i; simpl; [reflexivity|].
  destruct (String.eqb_spec (getId d) id); [contradiction|].
  now rewrite IH.
Qed.

(** The handler of the later revision acts on every device that has the id. *)
Lemma control_each_lookup (req : ControlRequest) (id : string) (ds : list Device)
    (i k : nat) (d : Device) :
  ds !! k = Some d ->
  fst (MainRev.control_each req id ds i) !! k
  = Some (if String.eqb (getId d) id then fst (control_device req (i + k) d) else d).
Proof.
  revert i k. induction ds as [|d0 rest IH]; intros i k Hk; [discriminate|].
  simpl.
  destruct (if String.eqb (getId d0) id then control_device req i d0 else (d0, []))
    as [d0' evs] eqn:E0.
  destruct (MainRev.control_each req id rest (S i)) as [rest' evs'] eqn:Er.
  destruct k as [|k]; simpl in *.
  - injection Hk as <-. rewrite Nat.add_0_r.
    destruct (String.eqb (getId d0) id); [now rewrite E0|now inversion E0].
  - specialize (IH (S i) k Hk). rewrite Er in IH. simpl in IH. rewrite IH.
    now replace (i + S k)%nat with (S (i + k)) by lia.
Qed.

(** C3, as amended: the scan of the [/api/control] handler of main.cpp and
    the scan of the rule engine resolve an id to the last device of
    [devices] that has it, and to nothing exactly when no device has it; the
    control handler then acts on that device alone; a dispatch whose id
    matches no device changes no device and invokes nothing. *)
Theorem C3_id_resolves_to_last_match (devices : list Device) (r : Rule)
    (req : ControlRequest) (id : string) :
  (forall k, find_by_id id devices 0 None = Some k <-> is_last_with_id id devices k)
  /\ (find_by_id id devices 0 None = None <-> no_device_with_id id devices)
  /\ find_src_tgt r devices 0 None None
     = (find_by_id (srcId r) devices 0 None, find_by_id (tgtId r) devices 0 None)
  /\ (forall k d, p_id req = Some id -> is_last_with_id id devices k ->
        devices !! k = Some d ->
        MainCpp.api_control req devices
        = (<[k := fst (control_device req k d)]> devices,
           snd (control_device req k d), 200))
  /\ (p_id req = Some id -> no_device_with_id id devices ->
      MainCpp.api_control req devices = (devices, [], 200)
      /\ MainRev.api_control req devices = (devices, [], 200)).
Proof.
  split; [intros k; apply find_by_id_last|].
  split; [apply find_by_id_none|].
  split; [apply find_src_tgt_split|].
  split.
  - intros k d Hid Hlast Hk. unfold MainCpp.api_control. rewrite Hid.
    apply find_by_id_last in Hlast. rewrite Hlast, Hk.
    now destruct (control_device req k d).
  - intros Hid Hno. unfold MainCpp.api_control, MainRev.api_control. rewrite Hid.
    apply find_by_id_none in Hno as Hnone. rewrite Hnone.
    now rewrite control_each_no_match.
Qed.

End Resolution.

Definition relay (id name : string) (pin : Z) (st : bool) : Device :=
  digital id name "RELAY" pin true false st.

Definition two_with_same_id : list Device :=
  [relay "dup" "Pompe A" 4 false; relay "dup" "Pompe B" 5 false].

Definition toggle_request (id : string) : ControlRequest :=
  mkControlRequest (Some id) None (Some "toggle"%string) None.

(** C3 as stated fails on two relays registered under the same id: the
    first device with the id is at position 0, yet the control handler and
    the rule engine resolve the id to position 1, and a toggle sent to the id
    switches the second relay and leaves the first alone. *)
Lemma C3_counterexample_last_match_wins :
  is_first_with_id "dup" two_with_same_id 0
  /\ find_by_id "dup" two_with_same_id 0 None = Some 1%nat
  /\ find_src_tgt (mkRule "dup" "val" ">" (f32_of_Z 0) "dup" (f32_of_Z 1))
       two_with_same_id 0 None None = (Some 1%nat, Some 1%nat)
  /\ MainCpp.api_control (P := sample_platform) (toggle_request "dup") two_with_same_id
     = ([relay "dup" "Pompe A" 4 false; relay "dup" "Pompe B" 5 true],
        [EvWrite 1 "toggle" (f32_of_Z 0); EvHw (digitalWrite 5 true)], 200).
Proof.
  split; [|repeat split].
  split; [eexists; split; reflexivity|]. intros j d' Hj. lia.
Qed.

(** On the same devices the handler of the later revision switches both. *)
Example control_each_same_id :
  MainRev.api_control (P := sample_platform) (toggle_request "dup") two_with_same_id
  = ([relay "dup" "Pompe A" 4 true; relay "dup" "Pompe B" 5 true],
     [EvWrite 0 "toggle" (f32_of_Z 0); EvHw (digitalWrite 4 true);
      EvWrite 1 "toggle" (f32_of_Z 0); EvHw (digitalWrite 5 true)], 200).
Proof. reflexivity. Qed.

(** ** One rule, one cycle *)

Lemma read_keeps_identity (hw : Hardware) (d : Device) (doc : JsonObject) :
  getName (fst (read hw d doc)) = getName d
  /\ getId (fst (read hw d doc)) = getId d
  /\ getType (fst (read hw d doc)) = getType d.
Proof.
  unfold read, getType. destruct (drv d) eqn:E; simpl; rewrite ?E; repeat split.
Qed.


Section RuleProperties.
Context {P : Platform}.


(** A pass of the loop appends to the trace what it does; a cycle is the
    succession of the passes of its rules. *)
Lemma check_rule_appends (hw : Hardware) (ds : list Device) (tr : list Event) (r : Rule) :
  check_rule hw (ds, tr) r
  = (fst (check_rule hw (ds, []) r), tr ++ snd (check_rule hw (ds, []) r)).
Proof.
  unfold check_rule.
  destruct (find_src_tgt r ds 0 None None) as [[i|] [j|]];
    try (simpl; now rewrite app_nil_r).
  destruct (ds !! i) as [src|]; [|simpl; now rewrite app_nil_r].
  destruct (read hw src []) as [src' obj].
  destruct (json_get (param r) obj) as [v|]; [|reflexivity].
  destruct (_ || _); [|reflexivity].
  destruct (<[i:=src']> ds !! j) as [tgt|]; [|reflexivity].
  destruct (DeviceType_eqb (getType tgt) DISPLAY_DEV).
  - destruct (writeText _ tgt) as [tgt' ops]. simpl. now rewrite <- app_assoc.
  - destruct (write "set" (actionVal r) tgt) as [tgt' ops]. simpl.
    now rewrite <- app_assoc.
Qed.

Lemma run_rules_cons (hw : Hardware) (ds : list Device) (r : Rule) (rs : list Rule) :
  run_rules hw ds (r :: rs)
  = let '(ds1, tr1) := check_rule hw (ds, []) r in
    let '(ds2, tr2) := run_rules hw ds1 rs in
    (ds2, tr1 ++ tr2).
Proof.
  unfold run_rules. cbn [fold_left].
  destruct (check_rule hw (ds, []) r) as [ds1 tr1].
  assert (G : forall l d t,
    fold_left (check_rule hw) l (d, t)
    = (fst (fold_left (check_rule hw) l (d, [])),
       t ++ snd (fold_left (check_rule hw) l (d, [])))).
  { induction l as [|x l IH]; intros d t; cbn [fold_left].
    - simpl. now rewrite app_nil_r.
    - rewrite (check_rule_appends hw d t x).
      destruct (check_rule hw (d, []) x) as [d1 t1]. simpl.
      rewrite (IH d1 (t ++ t1)), (IH d1 t1). simpl. now rewrite app_assoc. }
  rewrite (G rs ds1 tr1).
  now destruct (fold_left (check_rule hw) rs (ds1, [])).
Qed.

End RuleProperties.

(** The spec's example: a DHT [t1], a relay [fan1] and the rule
    [t1.temp > 25 => fan1 := 1]. *)
Definition thermostat_devices : list Device :=
  [dht "t1" "Salon" 4 DHT22; relay "fan1" "Ventilateur" 23 false].

Definition thermostat_rule : Rule :=
  mkRule "t1" "temp" ">" (f32_of_Z 25) "fan1" (f32_of_Z 1).

(** The three readings of the spec's example: 30 switches the fan on, 20
    and a failed reading leave it alone. *)
Example thermostat_30 :
  check_rule (P := sample_platform) (dht_hw (f32_of_Z 30) (f32_of_Z 40))
    (thermostat_devices, []) thermostat_rule
  = ([dht "t1" "Salon" 4 DHT22; relay "fan1" "Ventilateur" 23 true],
     [EvRead 0; EvWrite 1 "set" (f32_of_Z 1); EvHw (digitalWrite 23 true)]).
Proof. reflexivity. Qed.

Example thermostat_20 :
  check_rule (P := sample_platform) (dht_hw (f32_of_Z 20) (f32_of_Z 40))
    (thermostat_devices, []) thermostat_rule
  = (thermostat_devices, [EvRead 0]).
Proof. reflexivity. Qed.

Example thermostat_error :
  check_rule (P := sample_platform) (dht_hw S754_nan (f32_of_Z 40))
    (thermostat_devices, []) thermostat_rule
  = (thermostat_devices, [EvRead 0]).
Proof. reflexivity. Qed.

(** With a display as target the reading is written as text. *)
Example thermostat_display :
  check_rule (P := sample_platform) (dht_hw (f32_of_Z 30) (f32_of_Z 40))
    ([dht "t1" "Salon" 4 DHT22; lcd "lcd1" "Ecran" 39 ""], [])
    (mkRule "t1" "temp" ">" (f32_of_Z 25) "lcd1" (f32_of_Z 1))
  = ([dht "t1" "Salon" 4 DHT22; lcd "lcd1" "Ecran" 39 "Salon: 30.00"],
     [EvRead 0; EvWriteText 1 "Salon: 30.00";
      EvHw (lcd_clear 39); EvHw (lcd_setCursor 39 0 0); EvHw (lcd_print 39 "Ecran");
      EvHw (lcd_setCursor 39 0 1); EvHw (lcd_print 39 "Salon: 30.00")]).
Proof. reflexivity. Qed.

(** ** The 500 ms gate of [checkRules] *)

(** Successive calls of [checkRules] on one clock: each call reads the
    uptime for its gate no earlier than [now] and for its stamp no earlier
    than for its gate, and the next call comes no earlier than the stamp. *)
Fixpoint in_time_order (now : Z) (ticks : list MainRev.Tick) : Prop :=
  match ticks with
  | [] => True
  | t :: rest =>
      now <= MainRev.t_gate t /\ MainRev.t_gate t <= MainRev.t_stamp t
      /\ in_time_order (MainRev.t_stamp t) rest
  end.

Lemma in_time_order_lookup (now : Z) (ticks : list MainRev.Tick) (j : nat)
    (tj : MainRev.Tick) :
  in_time_order now ticks -> ticks !! j = Some tj ->
  now <= MainRev.t_gate tj /\ MainRev.t_gate tj <= MainRev.t_stamp tj.
Proof.
  revert now j. induction ticks as [|t rest IH]; intros now j Ho Hj; [discriminate|].
  destruct Ho as (H1 & H2 & H3). destruct j as [|j]; simpl in Hj.
  - injection Hj as <-. lia.
  - destruct (IH _ _ H3 Hj). lia.
Qed.

(** The gate compares uptimes correctly across the wrap of [millis()]. *)
Lemma gate_elapsed (prev now : Z) :
  (MainRev.sub_ulong (MainRev.millis now) (MainRev.millis prev) <? 500) = true
  <-> (now - prev) mod 2 ^ 32 < 500.
Proof.
  unfold MainRev.sub_ulong, MainRev.millis.
  rewrite <- Zminus_mod. apply Z.ltb_lt.
Qed.

Lemma gate_blocks_early (prev now : Z) :
  prev <= now -> now < prev + 500 ->
  (MainRev.sub_ulong (MainRev.millis now) (MainRev.millis prev) <? 500) = true.
Proof.
  intros H1 H2. apply gate_elapsed.
  rewrite Z.mod_small; lia.
Qed.

Lemma gate_open_late (prev now : Z) :
  prev <= now ->
  (MainRev.sub_ulong (MainRev.millis now) (MainRev.millis prev) <? 500) = false ->
  prev + 500 <= now.
Proof.
  intros H1 H2. destruct (Z_lt_le_dec now (prev + 500)) as [Hlt|Hge]; [|exact Hge].
  rewrite (gate_blocks_early prev now H1 Hlt) in H2. discriminate.
Qed.

Section GateProperties.
Context {P : Platform}.

Lemma checkRules_blocked (t : MainRev.Tick) (st : MainRev.State) :
  (MainRev.sub_ulong (MainRev.millis (MainRev.t_gate t)) (MainRev.lastCheck st) <? 500) = true ->
  MainRev.checkRules t st = (st, None).
Proof. intros H. unfold MainRev.checkRules. now rewrite H. Qed.

Lemma checkRules_open (t : MainRev.Tick) (st : MainRev.State) :
  (MainRev.sub_ulong (MainRev.millis (MainRev.t_gate t)) (MainRev.lastCheck st) <? 500) = false ->
  exists ds tr,
    run_rules (MainRev.t_hw t) (MainRev.devices st) (MainRev.rules st) = (ds, tr)
    /\ MainRev.checkRules t st
       = (MainRev.mkState ds (MainRev.rules st) (MainRev.millis (MainRev.t_stamp t)), Some tr).
Proof.
  intros H. unfold MainRev.checkRules. rewrite H.
  destruct (run_rules _ _ _) as [ds tr]. now exists ds, tr.
Qed.

(** The invariant of the loop: [lastCheck] is the clock reading at uptime
    [prev], the stamp of the last pass (or boot).  A call that runs the rule
    loop has its gate at least 500 ms after [prev] and after the stamp of
    every earlier call that ran it. *)
Lemma loop_gaps (ticks : list MainRev.Tick) :
  forall (st : MainRev.State) (prev now : Z),
  MainRev.lastCheck st = MainRev.millis prev -> prev <= now ->
  in_time_order now ticks ->
  forall j tj, ticks !! j = Some tj -> MainRev.loop st ticks !! j = Some true ->
  prev + 500 <= MainRev.t_gate tj
  /\ forall i ti, (i < j)%nat -> ticks !! i = Some ti ->
       MainRev.loop st ticks !! i = Some true ->
       MainRev.t_stamp ti + 500 <= MainRev.t_gate tj.
Proof.
  induction ticks as [|t rest IH]; intros st prev now Hlast Hprev Ho j tj Hj Hrun;
    [discriminate|].
  destruct Ho as (Hn & Hg & Hrest). cbn [MainRev.loop] in *.
  destruct (MainRev.sub_ulong (MainRev.millis (MainRev.t_gate t)) (MainRev.lastCheck st) <? 500)
    eqn:G.
  - (* the gate is closed: nothing changes *)
    rewrite (checkRules_blocked t st G) in *.
    destruct j as [|j]; simpl in Hj, Hrun; [discriminate|].
    assert (Hp : prev <= MainRev.t_stamp t) by lia.
    destruct (IH st prev _ Hlast Hp Hrest j tj Hj Hrun) as [H1 H2].
    split; [exact H1|].
    intros i ti Hi Hti Hri. destruct i as [|i]; simpl in Hti, Hri; [discriminate|].
    apply (H2 i ti); [lia|exact Hti|exact Hri].
  - (* the gate is open: the pass is stamped *)
    destruct (checkRules_open t st G) as (ds & tr & _ & E). rewrite E in *.
    rewrite Hlast in G.
    assert (Hopen : prev + 500 <= MainRev.t_gate t) by (apply gate_open_late; [lia|exact G]).
    destruct j as [|j]; simpl in Hj, Hrun.
    + injection Hj as <-. split; [exact Hopen|]. intros i ti Hi. lia.
    + destruct (IH (MainRev.mkState ds (MainRev.rules st) (MainRev.millis (MainRev.t_stamp t)))
                  (MainRev.t_stamp t) (MainRev.t_stamp t) eq_refl (Z.le_refl _) Hrest
                  j tj Hj Hrun) as [H1 H2].
      split; [lia|].
      intros i ti Hi Hti Hri. destruct i as [|i]; simpl in Hti, Hri.
      * injection Hti as <-. exact H1.
      * apply (H2 i ti); [lia|exact Hti|exact Hri].
Qed.

Lemma loop_lookup_some (st : MainRev.State) (ticks : list MainRev.Tick) (j : nat)
    (tj : MainRev.Tick) :
  ticks !! j = Some tj -> exists b, MainRev.loop st ticks !! j = Some b.
Proof.
  revert st j. induction ticks as [|t rest IH]; intros st j Hj; [discriminate|].
  cbn [MainRev.loop]. destruct (MainRev.checkRules t st) as [st' r].
  destruct j as [|j]; simpl in *; [eauto|]. now apply IH.
Qed.

(** C4, as amended: take the calls of the later [checkRules] made from
    boot on, in time order.  If call [i] ran the rule loop, then a later call
    [j] whose gate is read less than 500 ms after call [i] stamped
    [lastCheck] does not run it, and a later call that does run it stamps
    [lastCheck] at least 500 ms after call [i] did, also across the wrap of
    [millis()].  The stamp is taken before the lock on the registry is
    asked for, so this spaces the stamps, not the moments the rule loop
    runs. *)
Theorem C4_gate_spacing (ds : list Device) (rs : list Rule)
    (ticks : list MainRev.Tick) (i j : nat) (ti tj : MainRev.Tick) :
  in_time_order 0 ticks ->
  (i < j)%nat ->
  ticks !! i = Some ti ->
  ticks !! j = Some tj ->
  MainRev.loop (MainRev.boot ds rs) ticks !! i = Some true ->
  (MainRev.t_gate tj < MainRev.t_stamp ti + 500 ->
     MainRev.loop (MainRev.boot ds rs) ticks !! j = Some false)
  /\ (MainRev.loop (MainRev.boot ds rs) ticks !! j = Some true ->
      MainRev.t_stamp ti + 500 <= MainRev.t_stamp tj).
Proof.
  intros Ho Hij Hi Hj Hri.
  assert (Hgap : MainRev.loop (MainRev.boot ds rs) ticks !! j = Some true ->
                 MainRev.t_stamp ti + 500 <= MainRev.t_gate tj).
  { intros Hrj.
    destruct (loop_gaps ticks (MainRev.boot ds rs) 0 0 eq_refl (Z.le_refl _) Ho j tj Hj Hrj)
      as [_ H].
    apply (H i ti Hij Hi Hri). }
  split.
  - intros Hearly. destruct (loop_lookup_some (MainRev.boot ds rs) ticks j tj Hj) as [b Hb].
    destruct b; [|exact Hb]. specialize (Hgap Hb). lia.
  - intros Hrj. specialize (Hgap Hrj).
    destruct (in_time_order_lookup 0 ticks j tj Ho Hj). lia.
Qed.

End GateProperties.

(** Three calls at 600, 700 and 1200 ms of uptime: the first and the third
    run the rule loop, the second returns at the gate. *)
Definition sample_ticks : list MainRev.Tick :=
  [MainRev.mkTick 600 601 quiet_hw; MainRev.mkTick 700 700 quiet_hw;
   MainRev.mkTick 1200 1201 quiet_hw].

Lemma C4_witness :
  MainRev.loop (P := sample_platform) (MainRev.boot thermostat_devices [thermostat_rule])
    sample_ticks !! 1%nat = Some false.
Proof.
  refine (proj1 (C4_gate_spacing (P := sample_platform) thermostat_devices [thermostat_rule]
                   sample_ticks 0 1 (MainRev.mkTick 600 601 quiet_hw)
                   (MainRev.mkTick 700 700 quiet_hw) _ _ eq_refl eq_refl eq_refl) _).
  - simpl. lia.
  - lia.
  - simpl. lia.
Defined.

Example sample_ticks_flags :
  MainRev.loop (P := sample_platform) (MainRev.boot thermostat_devices [thermostat_rule])
    sample_ticks = [true; false; true].
Proof. reflexivity. Qed.

(** The gate across the wrap of [millis()]: a pass stamped 100 ms before
    the counter wraps blocks a call 300 ms later and lets one through 500 ms
    later. *)
Example gate_across_wrap :
  MainRev.loop (P := sample_platform) (MainRev.boot [] [])
    [MainRev.mkTick (2 ^ 32 - 100) (2 ^ 32 - 100) quiet_hw;
     MainRev.mkTick (2 ^ 32 + 200) (2 ^ 32 + 200) quiet_hw;
     MainRev.mkTick (2 ^ 32 + 400) (2 ^ 32 + 400) quiet_hw]
  = [true; false; true].
Proof. reflexivity. Qed.

(** In src/main.cpp [checkRules] has no gate: every call runs the rules. *)
Remark main_cpp_checkRules_ungated :
  forall (P : Platform) (hw : Hardware) (ds : list Device) (rs : list Rule),
  MainCpp.checkRules hw ds rs = run_rules hw ds rs.
Proof. reflexivity. Qed.

(** * Further properties *)

(** ** Pins and addresses *)

Ltac pin_cases :=
  repeat match goal with
  | |- context [Z.leb ?a ?b] => destruct (Z.leb_spec a b)
  | |- context [Z.ltb ?a ?b] => destruct (Z.ltb_spec a b)
  | |- context [Z.gtb ?a ?b] => destruct (Z.gtb_spec a b)
  | |- context [Z.eqb ?a ?b] => destruct (Z.eqb_spec a b)
  end.

(** X1: [isPinValid] of src/main.cpp accepts, for a bus driver, exactly the
    addresses 1 to 127, and for any other driver exactly the GPIOs 0, 2, 4,
    5 and 12 to 39. *)
Theorem isPinValid_accepts (pin : Z) (type : string) :
  (MainCpp.isI2CDriver type = true ->
     (MainCpp.isPinValid pin type = true <-> 1 <= pin <= 127))
  /\ (MainCpp.isI2CDriver type = false ->
       (MainCpp.isPinValid pin type = true
        <-> pin = 0 \/ pin = 2 \/ pin = 4 \/ pin = 5 \/ 12 <= pin <= 39)).
Proof.
  unfold MainCpp.isPinValid. split; intros ->.
  - pin_cases; simpl; split; intros; try discriminate; try reflexivity; lia.
  - pin_cases; simpl; split; intros; try discriminate; try reflexivity; lia.
Qed.

Lemma isOutputDevice_not_i2c (type : string) :
  MainRev.isI2CDriver type = true -> MainRev.isOutputDevice type = false.
Proof.
  unfold MainRev.isI2CDriver, MainRev.isOutputDevice, streq.
  repeat match goal with
  | |- context [String.eqb type ?s] =>
      destruct (String.eqb_spec type s) as [->|_]; [now intros _|]
  end.
  discriminate.
Qed.

Lemma rev_valid_main_valid (pin : Z) (type : string) :
  MainRev.isPinValid pin type = true -> MainCpp.isPinValid pin type = true.
Proof.
  unfold MainRev.isPinValid, MainCpp.isPinValid.
  change (MainCpp.isI2CDriver type) with (MainRev.isI2CDriver type).
  destruct (MainRev.isI2CDriver type); [|destruct (MainRev.isOutputDevice type)];
    pin_cases; simpl; intros Hv; try discriminate Hv; try reflexivity; exfalso; lia.
Qed.

Lemma rev_refuses_input_only (pin : Z) (type : string) :
  MainRev.isPinValid pin type = true -> MainRev.isOutputDevice type = true ->
  pin <> 34 /\ pin <> 35 /\ pin <> 36 /\ pin <> 39.
Proof.
  unfold MainRev.isPinValid. intros Hv Ho.
  destruct (MainRev.isI2CDriver type) eqn:I.
  - rewrite (isOutputDevice_not_i2c type I) in Ho. discriminate Ho.
  - rewrite Ho in Hv. revert Hv.
    pin_cases; simpl; intros Hv; try discriminate Hv; lia.
Qed.

(** X2: the later [isPinValid] accepts a pin only if the one of src/main.cpp
    does, and refuses besides exactly the bus addresses 120 to 127 and, for
    the output drivers (RELAY, VALVE, LOCK, SERVO, NEOPIXEL), the input-only
    GPIOs 34, 35, 36 and 39. *)
Theorem isPinValid_rev_stricter (pin : Z) (type : string) :
  MainRev.isPinValid pin type = true
  <-> MainCpp.isPinValid pin type = true
      /\ ~ (MainRev.isI2CDriver type = true /\ 119 < pin)
      /\ ~ (MainRev.isOutputDevice type = true
            /\ (pin = 34 \/ pin = 35 \/ pin = 36 \/ pin = 39)).
Proof.
  unfold MainRev.isPinValid, MainCpp.isPinValid.
  change (MainCpp.isI2CDriver type) with (MainRev.isI2CDriver type).
  destruct (MainRev.isI2CDriver type) eqn:I;
    [rewrite (isOutputDevice_not_i2c type I)|destruct (MainRev.isOutputDevice type)];
    pin_cases; simpl;
    (split;
     [ intros Hv; try discriminate Hv; repeat split; try reflexivity;
       first [ intros [Ha Hb]; try discriminate Ha; lia | exfalso; lia ]
     | intros (Ha & Hb & Hc); try discriminate Ha; try reflexivity; exfalso;
       first [ lia
             | apply Hb; split; [reflexivity|lia]
             | apply Hc; split; [reflexivity|lia] ] ]).
Qed.

(** ** Loading and saving the configuration *)

(** A descriptor that [loadConfig] of src/main.cpp registers, as a test. *)
Definition loadable_b (o : Descriptor) : bool :=
  MainCpp.isPinValid (d_pin o) (d_driver o)
  && existsb (String.eqb (d_driver o)) known_tags.

Lemma known_tag_existsb (type : string) :
  existsb (String.eqb type) known_tags = true <-> In type known_tags.
Proof.
  rewrite existsb_exists. split.
  - intros (t & Hin & Ht). apply String.eqb_eq in Ht. now subst.
  - intros Hin. exists type. split; [exact Hin|apply String.eqb_refl].
Qed.

Lemma construct_descriptor (o : Descriptor) (d : Device) :
  construct o = Some d ->
  descriptor_of d = o /\ existsb (String.eqb (d_driver o)) known_tags = true.
Proof.
  intros H. destruct (existsb (String.eqb (d_driver o)) known_tags) eqn:E.
  - apply known_tag_existsb in E.
    destruct (create_known (d_driver o) (d_id o) (d_name o) (d_pin o) E) as [s Hs].
    unfold construct in H. rewrite Hs in H. injection H as <-.
    split; [now destruct o|reflexivity].
  - exfalso. assert (Hn : ~ In (d_driver o) known_tags).
    { intros Hin. apply known_tag_existsb in Hin. congruence. }
    unfold construct in H. rewrite (create_unknown _ _ _ _ Hn) in H. discriminate.
Qed.

Lemma registers_loadable (o : Descriptor) :
  match registers o with
  | Some d => loadable_b o = true /\ descriptor_of d = o
  | None => loadable_b o = false
  end.
Proof.
  unfold registers, loadable_b.
  destruct (MainCpp.isPinValid (d_pin o) (d_driver o)); [|reflexivity].
  destruct (construct o) as [d|] eqn:C.
  - destruct (construct_descriptor o d C) as [H1 H2]. now rewrite H2.
  - destruct (existsb (String.eqb (d_driver o)) known_tags) eqn:E; [|reflexivity].
    apply known_tag_existsb in E.
    destruct (create_known (d_driver o) (d_id o) (d_name o) (d_pin o) E) as [s Hs].
    unfold construct in C. congruence.
Qed.

Lemma registered_descriptors (l : list Descriptor) :
  map descriptor_of (omap registers l) = List.filter loadable_b l.
Proof.
  induction l as [|o l IH]; [reflexivity|].
  rewrite omap_cons_match. pose proof (registers_loadable o) as H.
  cbn [List.filter]. destruct (registers o) as [d|].
  - destruct H as [-> Hd]. cbn [map]. now rewrite Hd, IH.
  - now rewrite H.
Qed.

Lemma registers_filtered (l : list Descriptor) :
  omap registers (List.filter loadable_b l) = omap registers l.
Proof.
  induction l as [|o l IH]; [reflexivity|].
  cbn [List.filter]. pose proof (registers_loadable o) as H.
  destruct (registers o) as [d|] eqn:R.
  - destruct H as [-> _]. now rewrite !omap_cons_match, R, IH.
  - now rewrite H, omap_cons_match, R.
Qed.

(** X3: [loadConfig] of src/main.cpp changes nothing when there is no
    file.  With a file it keeps the devices already registered and appends,
    in order, one device for each descriptor that has a known tag and a pin
    that [isPinValid] accepts, carrying that descriptor's id, name, driver
    and pin; every other descriptor is skipped; the rules are replaced by
    those of the file. *)
Theorem loadConfig_registers_loadable (hw : Hardware) (doc : Config)
    (devices : list Device) (rules : list Rule) :
  MainCpp.loadConfig hw None devices rules = (devices, rules, [])
  /\ (exists new,
        fst (fst (MainCpp.loadConfig hw (Some doc) devices rules)) = devices ++ new
        /\ map descriptor_of new = List.filter loadable_b (cfg_devices doc))
  /\ snd (fst (MainCpp.loadConfig hw (Some doc) devices rules)) = cfg_rules doc.
Proof.
  split; [reflexivity|]. unfold MainCpp.loadConfig.
  pose proof (load_devices_app hw (cfg_devices doc) devices []) as E.
  destruct (fold_left (MainCpp.load_device hw) (cfg_devices doc) (devices, []))
    as [ds ops]. simpl in E. subst ds. simpl. split; [|reflexivity].
  exists (omap registers (cfg_devices doc)). split; [reflexivity|].
  apply registered_descriptors.
Qed.

(** X4: saving and loading round-trip on the devices.  The devices loaded
    into an empty registry from a configuration are loaded again, the same,
    from the document that [saveConfig] writes for them, and also from the
    document written for any devices with the same ids, names, drivers and
    pins (whatever state those are in: the document holds no state). *)
Theorem saveConfig_loadConfig_round_trip (hw hw' : Hardware) (doc : Config)
    (rules : list Rule) (running : list Device) :
  let loaded := fst (fst (MainCpp.loadConfig hw (Some doc) [] [])) in
  map descriptor_of running = map descriptor_of loaded ->
  fst (fst (MainCpp.loadConfig hw' (Some (MainCppHandlers.saveConfig running rules)) [] []))
  = loaded.
Proof.
  intros loaded Hsame.
  assert (Hl : forall h c, fst (fst (MainCpp.loadConfig h (Some c) [] []))
                           = omap registers (cfg_devices c)).
  { intros h c. unfold MainCpp.loadConfig.
    pose proof (load_devices_app h (cfg_devices c) [] []) as E.
    destruct (fold_left (MainCpp.load_device h) (cfg_devices c) ([], [])) as [ds ops].
    exact E. }
  subst loaded. rewrite Hl in *. rewrite Hl. cbn [MainCppHandlers.saveConfig cfg_devices].
  rewrite Hsame, registered_descriptors. apply registers_filtered.
Qed.

Definition sample_config : Config :=
  mkConfig (sample_batch_head ++ sample_unknown :: sample_batch_tail) [thermostat_rule].

Lemma saveConfig_loadConfig_round_trip_witness :
  fst (fst (MainCpp.loadConfig quiet_hw
              (Some (MainCppHandlers.saveConfig
                       [relay "fan1" "Ventilateur" 23 true;
                        digital "pir1" "Couloir" "PIR" 27 false false true;
                        lcd "lcd1" "Ecran" 39 "Salon: 30.00"] []))
              [] []))
  = fst (fst (MainCpp.loadConfig quiet_hw (Some sample_config) [] [])).
Proof.
  apply (saveConfig_loadConfig_round_trip quiet_hw quiet_hw sample_config []
           [relay "fan1" "Ventilateur" 23 true;
            digital "pir1" "Couloir" "PIR" 27 false false true;
            lcd "lcd1" "Ecran" 39 "Salon: 30.00"]).
  reflexivity.
Defined.

(** ** The [/api/config] handler *)

Lemma load_into_empty (hw : Hardware) (l : list Descriptor) :
  fst (fold_left (MainCpp.load_device hw) l ([], [])) = omap registers l.
Proof. apply (load_devices_app hw l [] []). Qed.

Lemma in_flat_map_destroy (devices : list Device) (pin : Z) :
  In (servo_detach pin) (flat_map destroy devices)
  <-> exists d pos, In d devices /\ drv d = Driver_Servo pos /\ getPin d = pin.
Proof.
  rewrite in_flat_map. split.
  - intros (d & Hd & Hin). unfold destroy in Hin.
    destruct (drv d) eqn:E; try contradiction.
    destruct Hin as [[= <-]|[]]. now exists d, _pos.
  - intros (d & pos & Hd & Hs & <-). exists d. split; [exact Hd|].
    unfold destroy. rewrite Hs. now left.
Qed.

(** X5: the [/api/config] handler of src/main.cpp, on a body that parses,
    replaces the registry: the new devices are those [loadConfig] would
    register from the same descriptors into an empty registry, whatever the
    old devices were; the servos of the old registry, and nothing else, are
    detached; the rules are left as they were; the answer is 200 "Saved".
    The document saved lists the new devices when [/config.json] opens; when
    it does not, nothing is saved and the answer is 200 "Saved" all the
    same.  On a body that does not parse devices and rules are kept, nothing
    is saved and the answer is 400. *)
Theorem api_config_replaces_registry (hw : Hardware) (can_open : bool)
    (doc : ConfigBody) (devices others : list Device) (rules : list Rule) (pin : Z) :
  let r := MainCppHandlers.api_config hw can_open "/api/config" (Some doc) devices rules in
  let bad := MainCppHandlers.api_config hw can_open "/api/config" None devices rules in
  MainCppHandlers.r_devices r
    = fst (fst (MainCpp.loadConfig hw (Some (mkConfig (body_devices doc) [])) [] []))
  /\ MainCppHandlers.r_devices r
     = MainCppHandlers.r_devices
         (MainCppHandlers.api_config hw can_open "/api/config" (Some doc) others rules)
  /\ map descriptor_of (MainCppHandlers.r_devices r)
     = List.filter loadable_b (body_devices doc)
  /\ (In (servo_detach pin) (MainCppHandlers.r_teardown r)
      <-> exists d pos, In d devices /\ drv d = Driver_Servo pos /\ getPin d = pin)
  /\ MainCppHandlers.r_rules r = rules
  /\ MainCppHandlers.r_saved r
     = (if can_open
        then Some (mkConfig (List.filter loadable_b (body_devices doc)) rules)
        else None)
  /\ MainCppHandlers.r_response r = Some (200, "Saved"%string)
  /\ bad = MainCppHandlers.mkConfigResult devices rules [] [] None
             (Some (400, "Bad JSON"%string)).
Proof.
  intros r bad.
  assert (E : forall old, MainCppHandlers.api_config hw can_open "/api/config" (Some doc) old rules
    = MainCppHandlers.mkConfigResult (omap registers (body_devices doc)) rules
        (flat_map destroy old)
        (snd (fold_left (MainCpp.load_device hw) (body_devices doc) ([], [])))
        (if can_open
         then Some (MainCppHandlers.saveConfig (omap registers (body_devices doc)) rules)
         else None)
        (Some (200, "Saved"%string))).
  { intros old. unfold MainCppHandlers.api_config, clearDevices. simpl String.eqb. cbv iota.
    pose proof (load_into_empty hw (body_devices doc)) as L.
    destruct (fold_left (MainCpp.load_device hw) (body_devices doc) ([], [])) as [ds ops].
    simpl in L. now subst ds. }
  subst r bad. rewrite !E. cbn [MainCppHandlers.r_devices MainCppHandlers.r_teardown
    MainCppHandlers.r_rules MainCppHandlers.r_saved MainCppHandlers.r_response].
  repeat split.
  - unfold MainCpp.loadConfig. cbn [cfg_devices].
    pose proof (load_into_empty hw (body_devices doc)) as L.
    destruct (fold_left (MainCpp.load_device hw) (body_devices doc) ([], [])) as [ds ops].
    simpl in L. now subst ds.
  - apply registered_descriptors.
  - apply in_flat_map_destroy.
  - apply in_flat_map_destroy.
  - unfold MainCppHandlers.saveConfig. now rewrite registered_descriptors.
Qed.

(** What the later [load_device] adds to [devices]. *)
Definition registers_rev (o : Descriptor) : option Device :=
  if MainRev.isPinValid (d_pin o) (d_driver o) then construct o else None.

Lemma load_devices_rev_app (hw : Hardware) (l : list Descriptor) (ds : list Device)
    (ops : list HwOp) :
  fst (fold_left (MainRevHandlers.load_device hw) l (ds, ops)) = ds ++ omap registers_rev l.
Proof.
  revert ds ops. induction l as [|o l IH]; intros ds ops.
  - simpl. now rewrite app_nil_r.
  - cbn [fold_left]. rewrite omap_cons_match.
    unfold MainRevHandlers.load_device at 2, registers_rev at 1, construct at 1.
    destruct (MainRev.isPinValid (d_pin o) (d_driver o)); [|apply IH].
    destruct (create (d_driver o) (d_id o) (d_name o) (d_pin o)) as [d|]; [|apply IH].
    rewrite IH. now rewrite <- app_assoc.
Qed.

Lemma api_config_rev_result (hw : Hardware) (can_open : bool) (doc : ConfigBody)
    (devices : list Device) (rules : list Rule) :
  MainRevHandlers.r_devices
    (MainRevHandlers.api_config hw can_open "/api/config" (Some doc) devices rules)
  = omap registers_rev (body_devices doc)
  /\ MainRevHandlers.r_rules
       (MainRevHandlers.api_config hw can_open "/api/config" (Some doc) devices rules)
     = match body_rules doc with Some rs => rs | None => rules end.
Proof.
  unfold MainRevHandlers.api_config, clearDevices. simpl String.eqb. cbv iota.
  pose proof (load_devices_rev_app hw (body_devices doc) [] []) as L.
  destruct (fold_left (MainRevHandlers.load_device hw) (body_devices doc) ([], []))
    as [ds ops]. simpl in L. subst ds. split; reflexivity.
Qed.

(** X6: the later [/api/config] handler replaces the devices in the same
    way with the later pin test, replaces the rules exactly when the body
    has a member [rules], and answers 200 "Saved" also when the file could
    not be opened and nothing was saved; when the file opens, the document
    saved holds the new devices and the rules now in force. *)
Theorem api_config_rev_rules_and_save (hw : Hardware) (can_open : bool)
    (doc : ConfigBody) (devices : list Device) (rules : list Rule) :
  let r := MainRevHandlers.api_config hw can_open "/api/config" (Some doc) devices rules in
  MainRevHandlers.r_devices r = omap registers_rev (body_devices doc)
  /\ (forall rs, body_rules doc = Some rs -> MainRevHandlers.r_rules r = rs)
  /\ (body_rules doc = None -> MainRevHandlers.r_rules r = rules)
  /\ MainRevHandlers.r_response r = Some (200, "Saved"%string)
  /\ (can_open = false -> MainRevHandlers.r_saved r = None)
  /\ (can_open = true ->
      MainRevHandlers.r_saved r
      = Some (mkConfig (map descriptor_of (MainRevHandlers.r_devices r))
                       (MainRevHandlers.r_rules r))).
Proof.
  intros r. subst r. unfold MainRevHandlers.api_config, clearDevices.
  simpl String.eqb. cbv iota.
  pose proof (load_devices_rev_app hw (body_devices doc) [] []) as L.
  destruct (fold_left (MainRevHandlers.load_device hw) (body_devices doc) ([], []))
    as [ds ops]. simpl in L. subst ds.
  cbn [MainRevHandlers.r_devices MainRevHandlers.r_rules MainRevHandlers.r_saved
       MainRevHandlers.r_response].
  repeat split.
  - intros rs ->. reflexivity.
  - intros ->. reflexivity.
  - intros ->. reflexivity.
  - intros ->. reflexivity.
Qed.

(** ** The factory against the pin tests *)

Lemma created_tag_known (type id name : string) (pin : Z) (d : Device) :
  create type id name pin = Some d -> In type known_tags.
Proof.
  intros H. apply known_tag_existsb.
  apply (construct_descriptor (mkDescriptor id name type pin) d H).
Qed.

(** Case analysis on the tag of a device that [create] built. *)
Ltac factory_cases H :=
  let Hin := fresh "Hin" in
  pose proof (created_tag_known _ _ _ _ _ H) as Hin; simpl in Hin;
  repeat (destruct Hin as [<-|Hin]; [cbv in H; injection H as <-|]);
  [..|contradiction].

(** The classes derived from [Driver_I2C_Base]. *)
Definition on_bus (d : Device) : bool :=
  match drv d with
  | Driver_INA219 | Driver_BME280 | Driver_BH1750 | Driver_LCD _ => true
  | _ => false
  end.

(** X7: the pin tests and the factory agree on what is a bus device: a
    device that [create] builds is of a class derived from
    [Driver_I2C_Base] exactly when [isI2CDriver] holds of its tag, so its
    [pin] was tested as an address exactly when it is used as one.  The one
    tag that [isI2CDriver] knows and [create] does not build is OLED. *)
Theorem factory_agrees_with_isI2CDriver (type id name : string) (pin : Z) :
  (forall d, create type id name pin = Some d ->
     (MainCpp.isI2CDriver type = true <-> on_bus d = true))
  /\ (MainCpp.isI2CDriver type = true ->
      (create type id name pin = None <-> type = "OLED"%string)).
Proof.
  split.
  - intros d H. factory_cases H; cbv; split; congruence.
  - intros Hi. split.
    + intros Hn. apply create_none_iff in Hn.
      unfold MainCpp.isI2CDriver, streq in Hi.
      repeat match type of Hi with
      | context [String.eqb type ?s] =>
          destruct (String.eqb_spec type s) as [->|_];
          [try reflexivity; exfalso; apply Hn; simpl; tauto|]
      end.
      discriminate.
    + intros ->. reflexivity.
Qed.

Definition is_actuator (d : Device) : Prop :=
  getType d = ACTUATOR_BIN \/ getType d = ACTUATOR_VAL.

Lemma actuator_is_output_device (type id name : string) (pin : Z) (d : Device) :
  create type id name pin = Some d -> is_actuator d ->
  MainRev.isOutputDevice type = true.
Proof.
  intros H [Ha|Ha]; factory_cases H; try discriminate Ha; reflexivity.
Qed.

(** X8: [isOutputDevice] lists exactly the tags that the factory builds as
    actuators. *)
Theorem isOutputDevice_iff_actuator (type id name : string) (pin : Z) (d : Device) :
  create type id name pin = Some d ->
  (MainRev.isOutputDevice type = true <-> is_actuator d).
Proof.
  intros H. unfold is_actuator.
  factory_cases H; cbv; split; intros; try tauto; try discriminate;
    intuition discriminate.
Qed.

Lemma isOutputDevice_iff_actuator_witness :
  MainRev.isOutputDevice "SERVO" = true <-> is_actuator (servo "s1" "Arm" 18 0).
Proof.
  apply (isOutputDevice_iff_actuator "SERVO" "s1" "Arm" 18 (servo "s1" "Arm" 18 0)).
  reflexivity.
Defined.

(** X9: after the later [/api/config] handler, every device of the registry
    has a pin that the later [isPinValid] accepts for its driver, and no
    actuator sits on an input-only GPIO (34, 35, 36, 39). *)
Theorem rev_registry_pins (hw : Hardware) (can_open : bool) (doc : ConfigBody)
    (devices : list Device) (rules : list Rule) (d : Device) :
  d ∈ MainRevHandlers.r_devices
        (MainRevHandlers.api_config hw can_open "/api/config" (Some doc) devices rules) ->
  MainRev.isPinValid (getPin d) (getDriver d) = true
  /\ (is_actuator d ->
      getPin d <> 34 /\ getPin d <> 35 /\ getPin d <> 36 /\ getPin d <> 39).
Proof.
  intros Hd.
  destruct (api_config_rev_result hw can_open doc devices rules) as [E _].
  rewrite E in Hd. apply list_elem_of_omap in Hd as (o & _ & Hr).
  unfold registers_rev in Hr.
  destruct (MainRev.isPinValid (d_pin o) (d_driver o)) eqn:V; [|discriminate].
  destruct (construct_descriptor o d Hr) as [Hdesc _].
  assert (Hp : getPin d = d_pin o) by (rewrite <- Hdesc; reflexivity).
  assert (Ht : getDriver d = d_driver o) by (rewrite <- Hdesc; reflexivity).
  rewrite Hp, Ht. split; [exact V|].
  intros Ha. apply (rev_refuses_input_only _ _ V).
  exact (actuator_is_output_device _ _ _ _ _ Hr Ha).
Qed.

Lemma rev_registry_pins_witness :
  MainRev.isPinValid (getPin (relay "fan1" "Ventilateur" 23 false))
    (getDriver (relay "fan1" "Ventilateur" 23 false)) = true
  /\ (is_actuator (relay "fan1" "Ventilateur" 23 false) ->
      getPin (relay "fan1" "Ventilateur" 23 false) <> 34
      /\ getPin (relay "fan1" "Ventilateur" 23 false) <> 35
      /\ getPin (relay "fan1" "Ventilateur" 23 false) <> 36
      /\ getPin (relay "fan1" "Ventilateur" 23 false) <> 39).
Proof.
  apply (rev_registry_pins quiet_hw true
           (mkConfigBody [mkDescriptor "fan1" "Ventilateur" "RELAY" 23] None) [] []).
  cbv. apply list_elem_of_here.
Defined.

(** On src/main.cpp a relay on the input-only GPIO 34 is registered; the
    later revision refuses it. *)
Example relay_on_input_only_pin :
  MainCppHandlers.r_devices
    (MainCppHandlers.api_config quiet_hw true "/api/config"
       (Some (mkConfigBody [mkDescriptor "r" "Relais" "RELAY" 34] None)) [] [])
  = [relay "r" "Relais" 34 false]
  /\ MainRevHandlers.r_devices
       (MainRevHandlers.api_config quiet_hw true "/api/config"
          (Some (mkConfigBody [mkDescriptor "r" "Relais" "RELAY" 34] None)) [] [])
     = [].
Proof. split; reflexivity. Qed.

(** ** What [read] reports and changes *)

(** X10: whatever the inputs, [read] into an empty object writes at least
    one member; when it writes [error], that is the only member and the
    device is a DHT or a DS18B20; the bus devices (INA219, BME280, BH1750,
    LCD) never write [error]. *)
Theorem read_error_convention (hw : Hardware) (d : Device) :
  let out := snd (read hw d []) in
  out <> []
  /\ (containsKey "error" out = true ->
      json_keys out = ["error"%string]
      /\ ((exists ty, drv d = Driver_DHT ty) \/ drv d = Driver_Dallas))
  /\ (on_bus d = true -> containsKey "error" out = false).
Proof.
  unfold read, on_bus. destruct (drv d) eqn:E; cbn zeta.
  1-2, 5-10: (split; [discriminate|]; split; [discriminate|]; intros _; reflexivity
                || (intros H; discriminate H)).
  - destruct (isnan (dht_readTemperature hw (_pin d))); cbn.
    + split; [discriminate|]. split; [|discriminate]. intros _. split; [reflexivity|eauto].
    + split; [discriminate|]. split; discriminate.
  - destruct (feq (dallas_getTempCByIndex0 hw (_pin d)) float_m127); cbn.
    + split; [discriminate|]. split; [|discriminate]. intros _. split; [reflexivity|eauto].
    + split; [discriminate|]. split; discriminate.
Qed.

Lemma set_drv_same (d : Device) (s : Driver) : drv d = s -> set_drv d s = d.
Proof. intros <-. now destruct d. Qed.

Lemma read_idempotent (hw : Hardware) (d : Device) (doc : JsonObject) :
  read hw (fst (read hw d doc)) doc = read hw d doc.
Proof.
  unfold read. destruct (drv d) as [out inv st| | | | | | | | |m] eqn:E;
    cbn [fst]; try rewrite E; try reflexivity.
  destruct out; reflexivity.
Qed.

(** X11: [read] changes no device but an input-direction digital one, whose
    stored state becomes the level read on its pin, inverted when the
    inversion flag is set; and reading again with the same inputs gives the
    same device and the same output. *)
Theorem read_changes_only_digital_inputs (hw : Hardware) (d : Device) (doc : JsonObject) :
  (fst (read hw d doc) = d
   \/ exists inv st,
        drv d = Driver_Digital false inv st
        /\ fst (read hw d doc)
           = set_drv d (Driver_Digital false inv (xorb inv (digitalRead hw (getPin d)))))
  /\ read hw (fst (read hw d doc)) doc = read hw d doc.
Proof.
  unfold read, getPin. destruct (drv d) as [out inv st| | | | | | | | |m] eqn:E;
    cbn [fst]; try rewrite E; try (split; [now left|reflexivity]).
  destruct out; simpl.
  - split; [left; now apply set_drv_same|reflexivity].
  - split.
    + right. exists inv, st. split; [reflexivity|].
      now destruct inv, (digitalRead hw (_pin d)).
    + reflexivity.
Qed.

Lemma status_loop_spec (hw : Hardware) (devices : list Device) :
  status_loop hw devices
  = (map (fun d => fst (read hw d [])) devices,
     map (fun d => mkStatusEntry (getId d) (getName d) (getDriver d) (getPin d)
                                 (snd (read hw d []))) devices).
Proof.
  induction devices as [|d rest IH]; [reflexivity|].
  cbn [status_loop map]. rewrite IH. now destruct (read hw d []).
Qed.

Lemma read_keeps_descriptor (hw : Hardware) (d : Device) (doc : JsonObject) :
  descriptor_of (fst (read hw d doc)) = descriptor_of d.
Proof. unfold read. now destruct (drv d). Qed.

(** X12: the [/api/status] handler reports one entry per device, in the
    order of the registry, with the device's id, name, driver and pin and
    what [read] writes into an empty object; it leaves the id, name, driver,
    pin and type of every device as they were; and a second snapshot with
    the same inputs reports the same entries and leaves the devices as the
    first left them. *)
Theorem api_status_snapshot (hw : Hardware) (devices : list Device) :
  let devices' := fst (MainCppHandlers.api_status hw devices) in
  let entries := snd (MainCppHandlers.api_status hw devices) in
  map (fun e => mkDescriptor (st_id e) (st_name e) (st_driver e) (st_pin e)) entries
    = map descriptor_of devices
  /\ map st_val entries = map (fun d => snd (read hw d [])) devices
  /\ map descriptor_of devices' = map descriptor_of devices
  /\ map getType devices' = map getType devices
  /\ MainCppHandlers.api_status hw devices' = (devices', entries).
Proof.
  unfold MainCppHandlers.api_status. rewrite !status_loop_spec. cbn [fst snd].
  rewrite !map_map. repeat split.
  - apply map_ext. intros d. apply read_keeps_descriptor.
  - apply map_ext. intros d. apply (read_keeps_identity hw d []).
  - f_equal; apply map_ext; intros d; rewrite (read_idempotent hw d []);
      try reflexivity.
    pose proof (read_keeps_descriptor hw d []) as K.
    unfold descriptor_of in K. now injection K as -> -> -> ->.
Qed.

(** ** What [write] does, by kind of device *)

Section WriteProperties.
Context {P : Platform}.

(** X13: [write] sends nothing to the hardware exactly on the sensors (type
    [SENSOR_BIN] or [SENSOR_VAL]), and it leaves those unchanged; on every
    actuator and on the display each call drives the hardware. *)
Theorem write_noop_iff_sensor (cmd : string) (val : float) (d : Device) :
  (snd (write cmd val d) = [] <-> getType d = SENSOR_BIN \/ getType d = SENSOR_VAL)
  /\ (getType d = SENSOR_BIN \/ getType d = SENSOR_VAL -> write cmd val d = (d, [])).
Proof.
  unfold write, getType.
  destruct (drv d) as [[] inv st| | | | |n| | | |m]; simpl;
    try (split; [split; [now intros _; auto|reflexivity]|reflexivity]);
    try (split; [split; [discriminate|intros [H|H]; discriminate H]
                |intros [H|H]; discriminate H]).
  split; [split|].
  - intros H. apply app_eq_nil in H as [_ H]. discriminate H.
  - intros [H|H]; discriminate H.
  - intros [H|H]; discriminate H.
Qed.

(** X14: a command other than [toggle] is safe to repeat: sending it twice
    in a row leaves the device as after the first time and drives the
    hardware the second time as the first (so a rule that fires again on the
    next cycle changes nothing).  Two [toggle]s in a row bring a digital
    output back to its state and its pin back to its level. *)
Theorem write_repeated (cmd : string) (val val' : float) (d : Device)
    (id name type : string) (pin : Z) (inv st : bool) :
  (cmd <> "toggle"%string ->
     write cmd val (fst (write cmd val d)) = write cmd val d)
  /\ write "toggle" val' (fst (write "toggle" val (digital id name type pin true inv st)))
     = (digital id name type pin true inv st,
        [digitalWrite pin (drive_level inv st)]).
Proof.
  split.
  - intros Hc. unfold write.
    destruct (drv d) as [[] inv0 st0| | | | |n| | | |m] eqn:E; simpl;
      try rewrite E; try reflexivity.
    destruct (String.eqb_spec cmd "toggle"); [contradiction|reflexivity].
  - unfold write, digital, drive_level, apply. simpl. now destruct st.
Qed.

(** The calls a device can receive. *)
Inductive DeviceCall :=
| CallRead (hw : Hardware)
| CallWrite (cmd : string) (val : float)
| CallWriteText (text : string).

Definition call (d : Device) (c : DeviceCall) : Device :=
  match c with
  | CallRead hw => fst (read hw d [])
  | CallWrite cmd val => fst (write cmd val d)
  | CallWriteText text => fst (writeText text d)
  end.

(** What no call changes in a driver: its class, the direction and the
    inversion of a digital device, the pixel count. *)
Definition same_settings (a b : Driver) : Prop :=
  match a, b with
  | Driver_Digital o i _, Driver_Digital o' i' _ => o = o' /\ i = i'
  | Driver_Analog, Driver_Analog => True
  | Driver_DHT t, Driver_DHT t' => t = t'
  | Driver_Dallas, Driver_Dallas => True
  | Driver_Servo _, Driver_Servo _ => True
  | Driver_Neo n, Driver_Neo n' => n = n'
  | Driver_INA219, Driver_INA219 => True
  | Driver_BME280, Driver_BME280 => True
  | Driver_BH1750, Driver_BH1750 => True
  | Driver_LCD _, Driver_LCD _ => True
  | _, _ => False
  end.

Definition servo_in_range (d : Device) : Prop :=
  forall pos, drv d = Driver_Servo pos -> 0 <= pos <= 180.

Lemma call_keeps (d : Device) (c : DeviceCall) :
  descriptor_of (call d c) = descriptor_of d
  /\ same_settings (drv (call d c)) (drv d)
  /\ (servo_in_range d -> servo_in_range (call d c)).
Proof.
  destruct c as [hw|cmd val|text]; unfold call, read, write, writeText, servo_in_range;
    destruct (drv d) as [[] inv st| | | | |n| | | |m] eqn:E; simpl; rewrite ?E;
    (split; [reflexivity|]; split; [simpl; auto|]);
    intros Hr q Hq; try discriminate Hq; try (now apply Hr);
    injection Hq as <-; apply constrain_bounds; lia.
Qed.

Lemma same_settings_trans (a b c : Driver) :
  same_settings a b -> same_settings b c -> same_settings a c.
Proof.
  destruct a, b; simpl; try tauto; destruct c; simpl; try tauto;
    intros; try (destruct H, H0; split); congruence.
Qed.

Lemma same_settings_type (a b : Device) :
  same_settings (drv a) (drv b) -> getType a = getType b.
Proof.
  unfold getType. destruct (drv a), (drv b); simpl; try tauto; try reflexivity.
  now intros [-> _].
Qed.

Lemma same_settings_refl (a : Driver) : same_settings a a.
Proof. destruct a; simpl; auto. Qed.

Lemma calls_keep (cs : list DeviceCall) (a : Device) :
  descriptor_of (fold_left call cs a) = descriptor_of a
  /\ same_settings (drv (fold_left call cs a)) (drv a)
  /\ (servo_in_range a -> servo_in_range (fold_left call cs a)).
Proof.
  revert a. induction cs as [|c cs IH]; intros a.
  - split; [reflexivity|]. split; [apply same_settings_refl|auto].
  - cbn [fold_left]. destruct (IH (call a c)) as (I1 & I2 & I3).
    destruct (call_keeps a c) as (K1 & K2 & K3).
    split; [congruence|]. split; [eapply same_settings_trans; eauto|auto].
Qed.

(** X15: whatever calls of [read], [write] and [writeText] a device built by
    the factory receives, in any number and order, it keeps its id, name,
    driver tag, pin and type, its direction, inversion flag and pixel count,
    and, when it is a servo, an angle within [0,180]. *)
Theorem factory_device_invariant (type id name : string) (pin : Z) (d0 : Device)
    (calls : list DeviceCall) :
  create type id name pin = Some d0 ->
  let d := fold_left call calls d0 in
  descriptor_of d = mkDescriptor id name type pin
  /\ getType d = getType d0
  /\ same_settings (drv d) (drv d0)
  /\ servo_in_range d.
Proof.
  intros H d. destruct (calls_keep calls d0) as (K1 & K2 & K3). fold d in K1, K2, K3.
  split.
  - rewrite K1. apply (construct_descriptor (mkDescriptor id name type pin) d0 H).
  - split; [now apply same_settings_type|]. split; [exact K2|].
    apply K3. intros pos Hs. factory_cases H; try discriminate Hs.
    injection Hs as <-. lia.
Qed.

End WriteProperties.

Lemma factory_device_invariant_witness :
  let d := fold_left (call (P := sample_platform))
             [CallWrite "set" (f32_of_Z 999); CallRead quiet_hw; CallWriteText "x";
              CallWrite "toggle" float_90_5]
             (servo "s1" "Arm" 18 0) in
  descriptor_of d = mkDescriptor "s1" "Arm" "SERVO" 18
  /\ getType d = getType (servo "s1" "Arm" 18 0)
  /\ same_settings (drv d) (drv (servo "s1" "Arm" 18 0))
  /\ servo_in_range d.
Proof.
  apply (factory_device_invariant (P := sample_platform) "SERVO" "s1" "Arm" 18
           (servo "s1" "Arm" 18 0)).
  reflexivity.
Defined.

(** ** Devices as the factory builds them *)

Section FactoryDefaults.
Context {P : Platform}.

(** X16: a binary sensor built by the factory reports [val] 1 when its pin
    reads HIGH if its tag is PIR, and when its pin reads LOW for the other
    tags (BUTTON, DOOR), 0 otherwise, and [human] ON or OFF accordingly. *)
Theorem factory_binary_sensor_polarity (hw : Hardware) (type id name : string)
    (pin : Z) (d : Device) :
  create type id name pin = Some d ->
  getType d = SENSOR_BIN ->
  let active := Bool.eqb (digitalRead hw pin) (String.eqb type "PIR") in
  snd (read hw d [])
  = [("val"%string, JInt (if active then 1 else 0));
     ("human"%string, JString (if active then "ON" else "OFF"))].
Proof.
  intros H Ht. factory_cases H; try discriminate Ht; cbv -[digitalRead];
    now destruct (digitalRead hw pin).
Qed.

(** X17: a binary actuator built by the factory (RELAY, VALVE, LOCK) is
    never inverted and starts off: [begin] sets the pin as output and drives
    it LOW, and every later [write] drives the pin at the logical state it
    stores, HIGH for on. *)
Theorem factory_binary_actuator_levels (hw : Hardware) (type id name : string)
    (pin : Z) (d : Device) (calls : list DeviceCall) (cmd : string) (val : float) :
  create type id name pin = Some d ->
  getType d = ACTUATOR_BIN ->
  begin hw d = [pinMode pin OUTPUT; digitalWrite pin false]
  /\ exists st st',
       drv (fold_left call calls d) = Driver_Digital true false st
       /\ write cmd val (fold_left call calls d)
          = (set_drv d (Driver_Digital true false st'), [digitalWrite pin st']).
Proof.
  intros H Ht.
  assert (Hd : d = mkDevice id name type pin (Driver_Digital true false false)).
  { factory_cases H; try discriminate Ht; reflexivity. }
  split; [now rewrite Hd|].
  destruct (calls_keep calls d) as (I1 & I3 & _).
  set (d' := fold_left call calls d) in *.
  rewrite Hd in I1, I3. simpl in I3.
  destruct d' as [i n t p s]. simpl in I3. unfold descriptor_of in I1. simpl in I1.
  injection I1 as -> -> -> ->.
  destruct s as [o iv st| | | | | | | | |]; try contradiction.
  destruct I3 as [-> ->].
  exists st. eexists. split; [reflexivity|].
  unfold write. simpl. rewrite Hd. reflexivity.
Qed.

End FactoryDefaults.

Lemma factory_binary_sensor_polarity_witness :
  snd (read quiet_hw (digital "b1" "Bouton" "BUTTON" 12 false true false) [])
  = [("val"%string, JInt 1); ("human"%string, JString "ON")].
Proof.
  exact (factory_binary_sensor_polarity quiet_hw "BUTTON" "b1" "Bouton" 12
           (digital "b1" "Bouton" "BUTTON" 12 false true false) eq_refl eq_refl).
Defined.

Lemma factory_binary_actuator_levels_witness :
  begin quiet_hw (relay "fan1" "Ventilateur" 23 false)
  = [pinMode 23 OUTPUT; digitalWrite 23 false]
  /\ exists st st',
       drv (fold_left (call (P := sample_platform)) [CallWrite "toggle" (f32_of_Z 0)]
              (relay "fan1" "Ventilateur" 23 false))
       = Driver_Digital true false st
       /\ write (P := sample_platform) "set" (f32_of_Z 1)
            (fold_left (call (P := sample_platform)) [CallWrite "toggle" (f32_of_Z 0)]
               (relay "fan1" "Ventilateur" 23 false))
          = (set_drv (relay "fan1" "Ventilateur" 23 false) (Driver_Digital true false st'),
             [digitalWrite 23 st']).
Proof.
  apply (factory_binary_actuator_levels (P := sample_platform) quiet_hw
           "RELAY" "fan1" "Ventilateur" 23 (relay "fan1" "Ventilateur" 23 false)
           [CallWrite "toggle" (f32_of_Z 0)] "set" (f32_of_Z 1));
    reflexivity.
Defined.

(** ** The colour actuator *)

Section NeoProperties.
Context {P : Platform}.

(** X18: [write] on the colour actuator sets each of its [count] pixels,
    in order, to one and the same hue, which is the value converted to
    [long] and then to a 16-bit unsigned number ([(long)val] modulo 65536),
    then shows once; the command is ignored; it stores nothing, so [read]
    reports the same before and after. *)
Theorem neo_write_uniform (hw : Hardware) (id name : string) (pin count : Z)
    (cmd : string) (val : float) :
  0 <= count ->
  let d := mkDevice id name "NEOPIXEL" pin (Driver_Neo count) in
  let ops := snd (write cmd val d) in
  let hue := cast_int val mod 65536 in
  0 <= hue < 65536
  /\ (forall n, trunc val = Some n -> INT_MIN <= n <= INT_MAX -> hue = n mod 65536)
  /\ length ops = S (Z.to_nat count)
  /\ (forall i, 0 <= i < count ->
        ops !! Z.to_nat i = Some (neo_setPixelColor pin i hue))
  /\ ops !! Z.to_nat count = Some (neo_show pin)
  /\ fst (write cmd val d) = d
  /\ read hw (fst (write cmd val d)) [] = read hw d [].
Proof.
  intros Hc d ops hue.
  subst ops d. unfold write. cbn [drv _pin fst snd].
  split; [apply Z.mod_pos_bound; lia|].
  split; [intros n Ht Hr; subst hue; now rewrite (cast_int_in_range val n Ht Hr)|].
  split; [rewrite length_app, length_map, length_seqZ; simpl; lia|].
  split; [|split; [|split; reflexivity]].
  - intros i Hi. rewrite lookup_app_l by (rewrite length_map, length_seqZ; lia).
    rewrite list_lookup_fmap, lookup_seqZ_lt by lia. simpl. f_equal. f_equal. lia.
  - rewrite lookup_app_r by (rewrite length_map, length_seqZ; lia).
    rewrite length_map, length_seqZ. now rewrite Nat.sub_diag.
Qed.

End NeoProperties.

Lemma neo_write_uniform_witness :
  let d := mkDevice "n1" "Ruban" "NEOPIXEL" 5 (Driver_Neo 16) in
  let ops := snd (write (P := sample_platform) "set" (f32_of_Z 70000) d) in
  0 <= 4464 < 65536
  /\ (forall n, trunc (f32_of_Z 70000) = Some n -> INT_MIN <= n <= INT_MAX ->
        4464 = n mod 65536)
  /\ length ops = S (Z.to_nat 16)
  /\ (forall i, 0 <= i < 16 -> ops !! Z.to_nat i = Some (neo_setPixelColor 5 i 4464))
  /\ ops !! Z.to_nat 16 = Some (neo_show 5)
  /\ fst (write (P := sample_platform) "set" (f32_of_Z 70000) d) = d
  /\ read quiet_hw (fst (write (P := sample_platform) "set" (f32_of_Z 70000) d)) []
     = read quiet_hw d [].
Proof.
  exact (neo_write_uniform (P := sample_platform) quiet_hw "n1" "Ruban" 5 16 "set"
           (f32_of_Z 70000) ltac:(lia)).
Defined.

(** ** More on the rule engine *)

Section MoreRuleProperties.
Context {P : Platform}.

(** X19: a rule whose source id or target id matches no device is skipped
    whole: the devices and the trace are left as they are, and the source,
    if there is one, is not even read. *)
Theorem check_rule_lookup_miss (hw : Hardware) (devices : list Device)
    (tr : list Event) (r : Rule) :
  no_device_with_id (srcId r) devices \/ no_device_with_id (tgtId r) devices ->
  check_rule hw (devices, tr) r = (devices, tr).
Proof.
  intros H. unfold check_rule. rewrite find_src_tgt_split.
  destruct H as [H|H]; apply find_by_id_none in H; rewrite H;
    [reflexivity|now destruct (find_by_id (srcId r) devices 0 None)].
Qed.

Lemma SFltb_nan_l (x : float) : SFltb S754_nan x = false.
Proof. reflexivity. Qed.

Lemma SFltb_nan_r (x : float) : SFltb x S754_nan = false.
Proof. now destruct x. Qed.

(** X20: a pass of the rule loop invokes [write] or [writeText] only if
    both ids of the rule resolve, the source's output holds the parameter,
    its value is not NaN, and either the operator is [">"] and the value is
    above the threshold or the operator is ["<"] and the value is below it.
    A rule with any other operator never acts. *)
Theorem rule_acts_only_if (hw : Hardware) (devices : list Device) (r : Rule) :
  actions (snd (check_rule hw (devices, []) r)) <> [] ->
  exists i j src v,
    find_by_id (srcId r) devices 0 None = Some i
    /\ find_by_id (tgtId r) devices 0 None = Some j
    /\ devices !! i = Some src
    /\ json_get (param r) (snd (read hw src [])) = Some v
    /\ isnan (as_float v) = false
    /\ ((op r = ">"%string /\ fgt (as_float v) (threshold r) = true)
        \/ (op r = "<"%string /\ flt (as_float v) (threshold r) = true)).
Proof.
  unfold check_rule. rewrite find_src_tgt_split.
  destruct (find_by_id (srcId r) devices 0 None) as [i|]; [|now intros []].
  destruct (find_by_id (tgtId r) devices 0 None) as [j|]; [|now intros []].
  destruct (devices !! i) as [src|] eqn:Hs; [|now intros []].
  destruct (read hw src []) as [src' obj] eqn:R.
  destruct (json_get (param r) obj) as [v|] eqn:Hv; [|now intros []].
  destruct (_ || _) eqn:T; [|now intros []].
  intros _. exists i, j, src, v. rewrite R. simpl snd.
  split; [reflexivity|]. split; [reflexivity|]. split; [exact Hs|].
  split; [exact Hv|]. split.
  - destruct (as_float v) eqn:A; try reflexivity.
    unfold fgt, flt in T.
    rewrite SFltb_nan_l, SFltb_nan_r, !andb_false_r in T. discriminate T.
  - apply orb_true_iff in T as [T|T]; apply andb_true_iff in T as [T1 T2];
      apply String.eqb_eq in T1; [left|right]; now split.
Qed.

End MoreRuleProperties.

Lemma rule_acts_only_if_witness :
  exists i j src v,
    find_by_id (srcId thermostat_rule) thermostat_devices 0 None = Some i
    /\ find_by_id (tgtId thermostat_rule) thermostat_devices 0 None = Some j
    /\ thermostat_devices !! i = Some src
    /\ json_get (param thermostat_rule)
         (snd (read (dht_hw (f32_of_Z 30) (f32_of_Z 40)) src [])) = Some v
    /\ isnan (as_float (P := sample_platform) v) = false
    /\ ((op thermostat_rule = ">"%string
         /\ fgt (as_float (P := sample_platform) v) (threshold thermostat_rule) = true)
        \/ (op thermostat_rule = "<"%string
            /\ flt (as_float (P := sample_platform) v) (threshold thermostat_rule) = true)).
Proof.
  apply (rule_acts_only_if (P := sample_platform) (dht_hw (f32_of_Z 30) (f32_of_Z 40)) thermostat_devices
           thermostat_rule).
  discriminate.
Defined.


Lemma check_rule_lookup_miss_witness :
  check_rule (P := sample_platform) (dht_hw (f32_of_Z 30) (f32_of_Z 40))
    (thermostat_devices, [])
    (mkRule "t1" "temp" ">" (f32_of_Z 25) "fan2" (f32_of_Z 1))
  = (thermostat_devices, []).
Proof.
  apply (check_rule_lookup_miss (P := sample_platform)).
  right. repeat constructor; discriminate.
Defined.

(** ** What a cycle keeps *)

Lemma writeText_noop (text : string) (d : Device) :
  getType d <> DISPLAY_DEV -> writeText text d = (d, []).
Proof.
  intros Hty. unfold writeText. destruct (drv d) eqn:E; try reflexivity.
  exfalso. apply Hty. apply getType_display. eauto.
Qed.

Section CycleInvariants.
Context {P : Platform}.

Lemma write_keeps (cmd : string) (val : float) (d : Device) :
  descriptor_of (fst (write cmd val d)) = descriptor_of d
  /\ getType (fst (write cmd val d)) = getType d.
Proof.
  destruct (call_keeps d (CallWrite cmd val)) as (K1 & K2 & _).
  split; [exact K1|now apply same_settings_type].
Qed.

Lemma writeText_keeps (text : string) (d : Device) :
  descriptor_of (fst (writeText text d)) = descriptor_of d
  /\ getType (fst (writeText text d)) = getType d.
Proof.
  destruct (call_keeps d (CallWriteText text)) as (K1 & K2 & _).
  split; [exact K1|now apply same_settings_type].
Qed.

Lemma insert_keeps {A : Type} (f : Device -> A) (l : list Device) (i : nat)
    (x y : Device) :
  l !! i = Some x -> f y = f x -> f <$> <[i:=y]> l = f <$> l.
Proof.
  intros Hl Hf. rewrite list_fmap_insert, Hf. apply list_insert_id.
  now rewrite list_lookup_fmap, Hl.
Qed.

Lemma check_rule_keeps (hw : Hardware) (ds : list Device) (tr : list Event) (r : Rule) :
  map descriptor_of (fst (check_rule hw (ds, tr) r)) = map descriptor_of ds
  /\ map getType (fst (check_rule hw (ds, tr) r)) = map getType ds.
Proof.
  unfold check_rule.
  destruct (find_src_tgt r ds 0 None None) as [[i|] [j|]]; try (split; reflexivity).
  destruct (ds !! i) as [src|] eqn:Hs; [|split; reflexivity].
  pose proof (read_keeps_descriptor hw src []) as D1.
  pose proof (read_keeps_identity hw src []) as (_ & _ & T1).
  destruct (read hw src []) as [src' obj]. simpl in D1, T1.
  assert (K1 : map descriptor_of (<[i:=src']> ds) = map descriptor_of ds)
    by (eapply (insert_keeps descriptor_of); eauto).
  assert (K2 : map getType (<[i:=src']> ds) = map getType ds)
    by (eapply (insert_keeps getType); eauto).
  destruct (json_get (param r) obj) as [v|]; [|now split].
  destruct (_ || _); [|now split].
  destruct (<[i:=src']> ds !! j) as [tgt|] eqn:Ht; [|now split].
  destruct (DeviceType_eqb (getType tgt) DISPLAY_DEV).
  - destruct (writeText_keeps (getName src' +:+ ": " +:+ String_of_float (as_float v)) tgt)
      as [W1 W2].
    destruct (writeText _ tgt) as [tgt' ops]. simpl in *. split.
    + rewrite <- K1. eapply (insert_keeps descriptor_of); eauto.
    + rewrite <- K2. eapply (insert_keeps getType); eauto.
  - destruct (write_keeps "set" (actionVal r) tgt) as [W1 W2].
    destruct (write "set" (actionVal r) tgt) as [tgt' ops]. simpl in *. split.
    + rewrite <- K1. eapply (insert_keeps descriptor_of); eauto.
    + rewrite <- K2. eapply (insert_keeps getType); eauto.
Qed.

Lemma find_by_id_same_ids (id : string) (ds ds' : list Device) (i : nat)
    (acc : option nat) :
  map getId ds = map getId ds' -> find_by_id id ds i acc = find_by_id id ds' i acc.
Proof.
  revert ds' i acc. induction ds as [|d ds IH]; intros [|d' ds'] i acc H;
    try discriminate; [reflexivity|].
  simpl in H. injection H as Hd Hr. simpl. rewrite Hd. now apply IH.
Qed.

Lemma descriptors_ids (ds ds' : list Device) :
  map descriptor_of ds = map descriptor_of ds' -> map getId ds = map getId ds'.
Proof.
  intros H. apply (f_equal (map d_id)) in H. now rewrite !map_map in H.
Qed.

(** X21: a cycle of the rule engine, whatever the rules and the inputs,
    keeps the registry in shape: as many devices, each with the id, name,
    driver, pin and type it had.  So every id resolves after the cycle as
    before it, and the configuration that [saveConfig] writes is the same. *)
Theorem run_rules_keeps_registry (hw : Hardware) (devices : list Device)
    (rules saved : list Rule) (id : string) :
  let devices' := fst (run_rules hw devices rules) in
  map descriptor_of devices' = map descriptor_of devices
  /\ map getType devices' = map getType devices
  /\ length devices' = length devices
  /\ find_by_id id devices' 0 None = find_by_id id devices 0 None
  /\ MainCppHandlers.saveConfig devices' saved = MainCppHandlers.saveConfig devices saved.
Proof.
  intros devices'.
  assert (G : forall rs ds tr,
    map descriptor_of (fst (fold_left (check_rule hw) rs (ds, tr))) = map descriptor_of ds
    /\ map getType (fst (fold_left (check_rule hw) rs (ds, tr))) = map getType ds).
  { induction rs as [|r rs IH]; intros ds tr; [now split|].
    cbn [fold_left]. destruct (check_rule_keeps hw ds tr r) as [C1 C2].
    destruct (check_rule hw (ds, tr) r) as [ds1 tr1]. simpl in C1, C2.
    destruct (IH ds1 tr1) as [I1 I2]. split; congruence. }
  destruct (G rules devices []) as [G1 G2]. fold (run_rules hw devices rules) in G1, G2.
  fold devices' in G1, G2.
  split; [exact G1|]. split; [exact G2|].
  split; [apply (f_equal (@length _)) in G2; now rewrite !length_map in G2|].
  split; [apply find_by_id_same_ids, descriptors_ids, G1|].
  unfold MainCppHandlers.saveConfig. now rewrite G1.
Qed.

(** With a text in the request, the body of the handler is the call of
    [writeText] and nothing more. *)
Lemma control_device_text (req : ControlRequest) (text : string) (k : nat) (d : Device) :
  p_text req = Some text ->
  control_device req k d
  = (fst (writeText text d), EvWriteText k text :: map EvHw (snd (writeText text d))).
Proof.
  intros Ht. unfold control_device. rewrite Ht. now destruct (writeText text d).
Qed.

Lemma control_each_text (req : ControlRequest) (id text : string) (ds : list Device)
    (i : nat) :
  p_text req = Some text ->
  MainRev.control_each req id ds i
  = (map (fun d => if String.eqb (getId d) id then fst (writeText text d) else d) ds,
     concat (imap (fun k d => if String.eqb (getId d) id
                              then EvWriteText (i + k) text
                                   :: map EvHw (snd (writeText text d))
                              else []) ds)).
Proof.
  intros Ht. revert i. induction ds as [|d ds IH]; intros i; [reflexivity|].
  cbn [MainRev.control_each]. rewrite (IH (S i)), imap_cons. cbn [map concat].
  rewrite Nat.add_0_r.
  rewrite (imap_ext _ ((fun k d0 => if String.eqb (getId d0) id
                                    then EvWriteText (i + k) text
                                         :: map EvHw (snd (writeText text d0))
                                    else []) ∘ S) ds)
    by (intros k x _; simpl; now replace (S (i + k)) with (i + S k)%nat by lia).
  destruct (String.eqb (getId d) id); [|reflexivity].
  now rewrite (control_device_text req text i d Ht).
Qed.

Lemma control_each_text_quiet (req : ControlRequest) (id text : string)
    (ds : list Device) (i : nat) :
  p_text req = Some text ->
  Forall (fun d => getType d <> DISPLAY_DEV) ds ->
  fst (MainRev.control_each req id ds i) = ds
  /\ forall e, In e (snd (MainRev.control_each req id ds i)) ->
               exists k, e = EvWriteText k text.
Proof.
  intros Ht Hf. revert i. induction Hf as [|d ds Hd Hds IH]; intros i;
    [split; [reflexivity|intros e []]|].
  simpl. destruct (IH (S i)) as [I1 I2].
  destruct (MainRev.control_each req id ds (S i)) as [rest evs]. simpl in I1, I2.
  subst rest.
  destruct (String.eqb (getId d) id);
    [rewrite (control_device_text req text i d Ht), (writeText_noop text d Hd)|];
    simpl; (split; [reflexivity|]); [|exact I2].
  intros e [<-|He]; [now exists i|now apply I2].
Qed.

(** X22: in both revisions of the [/api/control] handler a request that
    carries a text is a [writeText] and nothing else, on a display as on any
    other device: the device it reaches becomes what [writeText] makes of
    it, what is done to it is that one call with its output on the bus, and
    the command and the value of the request are ignored (the request
    stripped of them has the same outcome).  main.cpp reaches the last
    device that has the id, the later revision every device that has it, in
    order.  When no device of the registry is a display, such a request
    leaves every device as it is.  A request without an id is answered 400,
    any request with an id 200. *)
Theorem api_control_text_shadows_cmd (req : ControlRequest) (devices : list Device)
    (text : string) :
  p_text req = Some text ->
  let text_only := mkControlRequest (p_id req) (Some text) None None in
  let shown (k : nat) (d : Device) : list Event :=
    EvWriteText k text :: map EvHw (snd (writeText text d)) in
  let only_text (evs : list Event) :=
    forall e, In e evs -> exists i, e = EvWriteText i text in
  let status := match p_id req with Some _ => 200 | None => 400 end in
  (forall k d, control_device req k d = (fst (writeText text d), shown k d))
  /\ MainCpp.api_control req devices = MainCpp.api_control text_only devices
  /\ MainRev.api_control req devices = MainRev.api_control text_only devices
  /\ (forall id k d, p_id req = Some id -> is_last_with_id id devices k ->
        devices !! k = Some d ->
        MainCpp.api_control req devices
        = (<[k := fst (writeText text d)]> devices, shown k d, 200))
  /\ (forall id, p_id req = Some id ->
        MainRev.api_control req devices
        = (map (fun d => if String.eqb (getId d) id then fst (writeText text d) else d)
             devices,
           concat (imap (fun k d => if String.eqb (getId d) id then shown k d else [])
                     devices),
           200))
  /\ (Forall (fun d => getType d <> DISPLAY_DEV) devices ->
        fst (fst (MainCpp.api_control req devices)) = devices
        /\ fst (fst (MainRev.api_control req devices)) = devices
        /\ only_text (snd (fst (MainCpp.api_control req devices)))
        /\ only_text (snd (fst (MainRev.api_control req devices))))
  /\ snd (MainCpp.api_control req devices) = status
  /\ snd (MainRev.api_control req devices) = status.
Proof.
  intros Ht text_only shown only_text status.
  assert (Hc : forall r k d, p_text r = Some text ->
                 control_device r k d = (fst (writeText text d), shown k d))
    by (intros r k d Hr; now apply control_device_text).
  assert (Hm : forall r, p_text r = Some text ->
                 MainCpp.api_control r devices
                 = match p_id r with
                   | Some id =>
                       match find_by_id id devices 0 None with
                       | Some i =>
                           match devices !! i with
                           | Some d => (<[i := fst (writeText text d)]> devices,
                                        shown i d, 200)
                           | None => (devices, [], 200)
                           end
                       | None => (devices, [], 200)
                       end
                   | None => (devices, [], 400)
                   end).
  { intros r Hr. unfold MainCpp.api_control. destruct (p_id r) as [id|]; [|reflexivity].
    destruct (find_by_id id devices 0 None) as [i|]; [|reflexivity].
    destruct (devices !! i) as [d|]; [|reflexivity]. now rewrite (Hc r i d Hr). }
  assert (Hr : forall r, p_text r = Some text ->
                 MainRev.api_control r devices
                 = match p_id r with
                   | Some id =>
                       (map (fun d => if String.eqb (getId d) id
                                      then fst (writeText text d) else d) devices,
                        concat (imap (fun k d => if String.eqb (getId d) id
                                                 then shown k d else []) devices),
                        200)
                   | None => (devices, [], 400)
                   end).
  { intros r Hr. unfold MainRev.api_control. destruct (p_id r) as [id|]; [|reflexivity].
    now rewrite (control_each_text r id text devices 0 Hr). }
  split; [intros k d; now apply Hc|].
  split; [now rewrite (Hm req Ht), (Hm text_only eq_refl)|].
  split; [now rewrite (Hr req Ht), (Hr text_only eq_refl)|].
  split.
  { intros id k d Hid Hk Hd. rewrite (Hm req Ht), Hid.
    apply find_by_id_last in Hk. now rewrite Hk, Hd. }
  split; [intros id Hid; now rewrite (Hr req Ht), Hid|].
  split.
  { intros Hall. unfold MainRev.api_control. rewrite (Hm req Ht).
    destruct (p_id req) as [id|]; [|repeat split; intros e []].
    destruct (control_each_text_quiet req id text devices 0 Ht Hall) as [R1 R2].
    destruct (MainRev.control_each req id devices 0) as [ds' evs']. simpl in R1, R2.
    subst ds'.
    destruct (find_by_id id devices 0 None) as [i|];
      [destruct (devices !! i) as [d|] eqn:Hd|].
    - rewrite Forall_forall in Hall. subst shown. cbn beta.
      rewrite (writeText_noop text d (Hall d (list_elem_of_lookup_2 _ _ _ Hd))). simpl.
      split; [now apply list_insert_id|]. split; [reflexivity|].
      split; [intros e [<-|[]]; now exists i|exact R2].
    - simpl. split; [reflexivity|]. split; [reflexivity|].
      split; [intros e []|exact R2].
    - simpl. split; [reflexivity|]. split; [reflexivity|].
      split; [intros e []|exact R2]. }
  subst status. rewrite (Hm req Ht), (Hr req Ht).
  destruct (p_id req) as [id|]; [|now split].
  split; [|reflexivity].
  destruct (find_by_id id devices 0 None) as [i|]; [|reflexivity].
  now destruct (devices !! i).
Qed.

End CycleInvariants.

(** A room with two displays that share an id, between them a relay. *)
Definition two_displays : list Device :=
  [lcd "lcd1" "Ecran" 39 ""; relay "fan1" "Ventilateur" 23 false;
   lcd "lcd1" "Couloir" 63 "old"].

Lemma api_control_text_shadows_cmd_witness :
  let req := mkControlRequest (Some "lcd1"%string) (Some "Bonjour"%string)
               (Some "set"%string) (Some "1"%string) in
  MainCpp.api_control (P := sample_platform) req two_displays
  = ([lcd "lcd1" "Ecran" 39 ""; relay "fan1" "Ventilateur" 23 false;
      lcd "lcd1" "Couloir" 63 "Bonjour"],
     [EvWriteText 2 "Bonjour"; EvHw (lcd_clear 63); EvHw (lcd_setCursor 63 0 0);
      EvHw (lcd_print 63 "Couloir"); EvHw (lcd_setCursor 63 0 1);
      EvHw (lcd_print 63 "Bonjour")],
     200)
  /\ fst (fst (MainRev.api_control (P := sample_platform) req two_displays))
     = [lcd "lcd1" "Ecran" 39 "Bonjour"; relay "fan1" "Ventilateur" 23 false;
        lcd "lcd1" "Couloir" 63 "Bonjour"].
Proof.
  pose proof (api_control_text_shadows_cmd (P := sample_platform)
                (mkControlRequest (Some "lcd1"%string) (Some "Bonjour"%string)
                   (Some "set"%string) (Some "1"%string))
                two_displays "Bonjour" eq_refl) as H.
  destruct H as (_ & _ & _ & H4 & H5 & _).
  split.
  - refine (H4 "lcd1"%string 2%nat (lcd "lcd1" "Couloir" 63 "old") eq_refl _ eq_refl).
    split; [exists (lcd "lcd1" "Couloir" 63 "old"); now split|].
    intros j d' Hj Hl. destruct j as [|[|[|j]]]; try lia. discriminate Hl.
  - exact (f_equal (fun r => fst (fst r)) (H5 "lcd1"%string eq_refl)).
Defined.

(** ** The two revisions of the factory *)

(** X23: the second factory builds, for each tag it has kept from the
    first and that is not NEOPIXEL, the very device the first builds (same
    class, direction, inversion and initial state); a NEOPIXEL has 16 pixels
    where it had 12; and the thirteen tags that only the first revision has
    (PUMP, HEATER, LIGHT_INV, ...) build a device there and nothing in the
    second, so such a descriptor of an old configuration is skipped. *)
Theorem factory_revisions (type id name : string) (pin : Z) :
  (forall d, create type id name pin = Some d ->
     on_bus d = true \/ type = "NEOPIXEL"%string
     \/ OmniDriversV1Factory.create type id name pin = Some d)
  /\ (In type OmniDriversV1Factory.dropped_tags ->
      create type id name pin = None
      /\ OmniDriversV1Factory.create type id name pin <> None)
  /\ drv <$> create "NEOPIXEL" id name pin = Some (Driver_Neo 16)
  /\ drv <$> OmniDriversV1Factory.create "NEOPIXEL" id name pin = Some (Driver_Neo 12).
Proof.
  split; [|split; [|split; reflexivity]].
  - intros d H. factory_cases H; cbv; auto.
  - intros Hin. simpl in Hin.
    repeat (destruct Hin as [<-|Hin]; [split; [reflexivity|discriminate]|]).
    contradiction.
Qed.

(** ** The bus scan *)

Lemma scan_addresses (ack : Z -> bool) (f : Z -> I2CEntry) (l : list Z) :
  (forall a, addr_dec (f a) = a) ->
  map addr_dec (flat_map (fun a => if ack a then [f a] else []) l) = List.filter ack l.
Proof.
  intros Hf. induction l as [|a l IH]; [reflexivity|].
  cbn [flat_map List.filter]. rewrite map_app, IH.
  destruct (ack a); simpl; now rewrite ?Hf.
Qed.

(** X24: [scanI2C] reports exactly the addresses from 1 to 126 that
    acknowledge, in increasing order and once each, each with its hexadecimal
    text and its hint, and the same addresses in both revisions.  Address
    127 is never probed nor reported (though [isPinValid] of src/main.cpp
    accepts it as a bus address), nor is address 0. *)
Theorem scanI2C_reports (ack : Z -> bool) (e : I2CEntry) :
  map addr_dec (MainCppHandlers.scanI2C ack) = List.filter ack (seqZ 1 126)
  /\ (In e (MainCppHandlers.scanI2C ack)
      <-> 1 <= addr_dec e <= 126 /\ ack (addr_dec e) = true
          /\ e = mkI2CEntry (addr_dec e) (sprintf_0x02X (addr_dec e))
                            (MainCppHandlers.hint_of (addr_dec e)))
  /\ map addr_dec (MainRevHandlers.scanI2C ack) = map addr_dec (MainCppHandlers.scanI2C ack)
  /\ MainCppHandlers.scanI2C (fun _ => false) = []
  /\ map addr_dec (MainCppHandlers.scanI2C (fun _ => true)) = seqZ 1 126
  /\ MainCpp.isPinValid 127 "LCD_I2C" = true.
Proof.
  split; [now apply scan_addresses|].
  split; [|split; [unfold MainRevHandlers.scanI2C, MainCppHandlers.scanI2C;
                   now rewrite !scan_addresses|repeat split]].
  unfold MainCppHandlers.scanI2C. rewrite in_flat_map. split.
  - intros (a & Ha & He). apply list_elem_of_In, elem_of_seqZ in Ha.
    destruct (ack a) eqn:A; [|contradiction]. destruct He as [<-|[]]. simpl.
    split; [lia|]. now split.
  - intros (Hr & Ha & He). exists (addr_dec e). split.
    + apply list_elem_of_In, elem_of_seqZ. lia.
    + rewrite Ha. left. now symmetry.
Qed.

(** ** [begin] at load time *)

Lemma load_device_step (hw : Hardware) (ds : list Device) (ops : list HwOp)
    (o : Descriptor) :
  MainCpp.load_device hw (ds, ops) o
  = match registers o with
    | Some d => (ds ++ [d], ops ++ begin hw d)
    | None => (ds, ops)
    end.
Proof.
  unfold MainCpp.load_device, registers, construct.
  destruct (MainCpp.isPinValid (d_pin o) (d_driver o)); [|reflexivity].
  now destruct (create (d_driver o) (d_id o) (d_name o) (d_pin o)).
Qed.

Lemma load_devices_ops (hw : Hardware) (l : list Descriptor) (ds : list Device)
    (ops : list HwOp) :
  fold_left (MainCpp.load_device hw) l (ds, ops)
  = (ds ++ omap registers l, ops ++ flat_map (begin hw) (omap registers l)).
Proof.
  revert ds ops. induction l as [|o l IH]; intros ds ops.
  - simpl. now rewrite !app_nil_r.
  - cbn [fold_left]. rewrite omap_cons_match, load_device_step.
    destruct (registers o) as [d|]; rewrite IH; [|reflexivity].
    cbn [flat_map]. now rewrite <- !app_assoc.
Qed.

Lemma begin_not_empty (hw : Hardware) (d : Device) : begin hw d <> [].
Proof. unfold begin. destruct (drv d); discriminate. Qed.

(** X25: [loadConfig] of src/main.cpp calls [begin] once on each device it
    registers, in the order of registration, and on nothing else: the
    hardware commands of a load are those of [begin] on the new devices, one
    after the other; every [begin] issues at least one command, and none
    changes the device. *)
Theorem loadConfig_begins_each_device (hw : Hardware) (doc : Config)
    (devices : list Device) (rules : list Rule) :
  exists new,
    MainCpp.loadConfig hw (Some doc) devices rules
    = (devices ++ new, cfg_rules doc, flat_map (begin hw) new)
    /\ Forall (fun d => begin hw d <> []) new
    /\ map descriptor_of new = List.filter loadable_b (cfg_devices doc).
Proof.
  exists (omap registers (cfg_devices doc)). split; [|split].
  - unfold MainCpp.loadConfig. now rewrite load_devices_ops.
  - apply Forall_forall. intros d _. apply begin_not_empty.
  - apply registered_descriptors.
Qed.

(** ** The later [loadConfig] *)

Lemma registers_rev_stricter (o : Descriptor) (d : Device) :
  registers_rev o = Some d -> registers o = Some d.
Proof.
  unfold registers_rev, registers.
  destruct (MainRev.isPinValid (d_pin o) (d_driver o)) eqn:V; [|discriminate].
  apply rev_valid_main_valid in V. now rewrite V.
Qed.

(** X26: the later [loadConfig] changes nothing when the file is missing or
    does not parse.  On a file that parses it appends the devices that pass
    the later pin test, each of which src/main.cpp would register too, and
    replaces the rules by those of the file, leaving no rule when the file
    has no member [rules]; the [/api/config] handler, on a body without
    [rules], keeps the rules instead. *)
Theorem loadConfig_rev_files (hw : Hardware) (can_open : bool) (doc : ConfigBody)
    (devices : list Device) (rules : list Rule) :
  MainRevHandlers.loadConfig hw MainRevHandlers.NoFile devices rules = (devices, rules, [])
  /\ MainRevHandlers.loadConfig hw MainRevHandlers.BadFile devices rules
     = (devices, rules, [])
  /\ fst (fst (MainRevHandlers.loadConfig hw (MainRevHandlers.GoodFile doc) devices rules))
     = devices ++ omap registers_rev (body_devices doc)
  /\ (forall o d, registers_rev o = Some d -> registers o = Some d)
  /\ (body_rules doc = None ->
      snd (fst (MainRevHandlers.loadConfig hw (MainRevHandlers.GoodFile doc) devices rules))
      = []
      /\ MainRevHandlers.r_rules
           (MainRevHandlers.api_config hw can_open "/api/config" (Some doc) devices rules)
         = rules)
  /\ (forall rs, body_rules doc = Some rs ->
      snd (fst (MainRevHandlers.loadConfig hw (MainRevHandlers.GoodFile doc) devices rules))
      = rs).
Proof.
  split; [reflexivity|]. split; [reflexivity|].
  assert (E : MainRevHandlers.loadConfig hw (MainRevHandlers.GoodFile doc) devices rules
    = (devices ++ omap registers_rev (body_devices doc),
       MainRevHandlers.reload_rules (body_rules doc),
       snd (fold_left (MainRevHandlers.load_device hw) (body_devices doc) (devices, [])))).
  { unfold MainRevHandlers.loadConfig.
    pose proof (load_devices_rev_app hw (body_devices doc) devices []) as L.
    destruct (fold_left (MainRevHandlers.load_device hw) (body_devices doc) (devices, []))
      as [ds ops]. simpl in L. now subst ds. }
  rewrite E. cbn [fst snd].
  split; [reflexivity|]. split; [apply registers_rev_stricter|]. split.
  - intros Hn. rewrite Hn. split; [reflexivity|].
    destruct (api_config_rev_result hw can_open doc devices rules) as [_ R].
    now rewrite R, Hn.
  - intros rs ->. reflexivity.
Qed.

(** ** A rule within its cycle *)

Section RuleInCycle.
Context {P : Platform}.






End RuleInCycle.


(** ** The gate and the lock *)

(** A call of the later [checkRules] together with the uptime at which
    [xSemaphoreTake(mutex, portMAX_DELAY)] returns, which is when its rule
    loop runs if the call passed the gate. *)
Record TimedTick := mkTimedTick {
  tt_tick : MainRev.Tick;
  t_run : Z;
}.

(** The gate is read, [lastCheck] is stamped, the lock is obtained, and the
    next call comes after that. *)
Fixpoint timed_order (now : Z) (ticks : list TimedTick) : Prop :=
  match ticks with
  | [] => True
  | t :: rest =>
      now <= MainRev.t_gate (tt_tick t)
      /\ MainRev.t_gate (tt_tick t) <= MainRev.t_stamp (tt_tick t)
      /\ MainRev.t_stamp (tt_tick t) <= t_run t
      /\ timed_order (t_run t) rest
  end.

Section LockWait.
Context {P : Platform}.

(** The uptimes at which the rule loop runs, over successive calls. *)
Fixpoint loop_runs (st : MainRev.State) (ticks : list TimedTick) : list Z :=
  match ticks with
  | [] => []
  | t :: rest =>
      let '(st', r) := MainRev.checkRules (tt_tick t) st in
      match r with
      | Some _ => t_run t :: loop_runs st' rest
      | None => loop_runs st' rest
      end
  end.

End LockWait.

(** C4 as stated fails in both revisions.  In the later one, when the lock
    is held by another task: a call passes the gate and stamps [lastCheck]
    at 600 ms, waits for the lock and runs its rule loop at 1150 ms; the
    next call, at 1151 ms, is 551 ms after the stamp, passes the gate and
    runs its rule loop at once, 1 ms after the previous evaluation.  In
    src/main.cpp [checkRules] reads no clock: two calls in a row, however
    close, both run the rule loop and both switch the relay. *)
Lemma C4_counterexample_evaluations_under_500ms :
  let ticks := [mkTimedTick (MainRev.mkTick 600 600 quiet_hw) 1150;
                mkTimedTick (MainRev.mkTick 1151 1151 quiet_hw) 1151] in
  let hw := dht_hw (f32_of_Z 30) (f32_of_Z 40) in
  let first := MainCpp.checkRules (P := sample_platform) hw thermostat_devices
                 [thermostat_rule] in
  let second := MainCpp.checkRules (P := sample_platform) hw (fst first)
                  [thermostat_rule] in
  (timed_order 0 ticks
   /\ loop_runs (P := sample_platform) (MainRev.boot thermostat_devices [thermostat_rule])
        ticks = [1150; 1151]
   /\ MainRev.loop (P := sample_platform) (MainRev.boot thermostat_devices [thermostat_rule])
        (map tt_tick ticks) = [true; true]
   /\ 1151 - 1150 < 500)
  /\ (snd first = [EvRead 0; EvWrite 1 "set" (f32_of_Z 1); EvHw (digitalWrite 23 true)]
      /\ snd second = [EvRead 0; EvWrite 1 "set" (f32_of_Z 1); EvHw (digitalWrite 23 true)]).
Proof.
  split; [|split; reflexivity].
  split; [simpl; lia|]. split; [reflexivity|]. split; [reflexivity|lia].
Qed.

(** The same two calls, 1 ms apart, through the gate of the later revision:
    the second returns at the gate. *)
Example later_revision_spaces_calls :
  let hw := dht_hw (f32_of_Z 30) (f32_of_Z 40) in
  MainRev.loop (P := sample_platform) (MainRev.boot thermostat_devices [thermostat_rule])
    [MainRev.mkTick 600 600 hw; MainRev.mkTick 601 601 hw] = [true; false].
Proof. reflexivity. Qed.
